(** * GST sales report: month resolution and per-platform aggregation

    Shallow embedding of [src/app.py]: [extract_month] (the spec's
    [resolve]) and the body of the platform summary loop (the spec's
    [summarize]).

    Modelling conventions.
    - A pandas [DataFrame] is a finite map from column names to columns;
      a column ([Series]) is a list of cells.  A cell is a number, a
      string or missing (NaN / None).  Numbers are exact rationals: every
      finite float is one, and float rounding is not modelled.
    - Python [str] values are [string]s of ASCII characters; [str.upper]
      and the case-insensitive matching of [strptime] are the ASCII ones.
    - Python exceptions are the [Raise] results of an error monad, and
      [try: ... except: ...] is [try_except].
    - [pd.to_datetime], the text of a number under [astype(str)] and the
      sorting routine behind [sort_values] are library code whose details
      the program does not fix; they are variables of the sections below,
      the last one with its contract as hypotheses. *)

From Stdlib Require Import ZArith QArith Qround List String Ascii Bool Lia.
From Stdlib Require Import Permutation Sorted.
From stdpp Require Import gmap strings pretty.

Local Open Scope string_scope.
Local Open Scope list_scope.
Local Open Scope Z_scope.

(** ** Exceptions *)

Inductive exn : Set :=
| IndexError
| ValueError
| TypeError
| KeyError
| OverflowError.

Inductive result (A : Type) : Type :=
| Ok (a : A)
| Raise (e : exn).

Arguments Ok {A} a.
Arguments Raise {A} e.

Definition rbind {A B} (r : result A) (k : A -> result B) : result B :=
  match r with
  | Ok a => k a
  | Raise e => Raise e
  end.

Notation "'let!' x ':=' r 'in' k" := (rbind r (fun x => k))
  (at level 10, x name, r at level 100, k at level 200).

(** [try: body  except: handler] with a bare [except]. *)
Definition try_except {A} (body handler : result A) : result A :=
  match body with
  | Ok a => Ok a
  | Raise _ => handler
  end.

(** ** Python strings and lists *)

Definition upper_ascii (c : ascii) : ascii :=
  let n := N_of_ascii c in
  if ((97 <=? n) && (n <=? 122))%N then ascii_of_N (n - 32) else c.

(** [s.upper()] *)
Fixpoint upper (s : string) : string :=
  match s with
  | EmptyString => EmptyString
  | String c s' => String (upper_ascii c) (upper s')
  end.

(** [sub in s] for two strings *)
Fixpoint contains (sub s : string) : bool :=
  String.prefix sub s
  || match s with
     | EmptyString => false
     | String _ s' => contains sub s'
     end.

(** [l[k]] for a Python list: negative indices count from the end. *)
Definition py_getitem {A} (l : list A) (k : Z) : result A :=
  let n := Z.of_nat (List.length l) in
  let i := if k <? 0 then k + n else k in
  if (0 <=? i) && (i <? n) then
    match nth_error l (Z.to_nat i) with
    | Some x => Ok x
    | None => Raise IndexError
    end
  else Raise IndexError.

(** Insertion sort, stable for a total [leb]. *)
Section Isort.
Context {A : Type} (leb : A -> A -> bool).

Fixpoint insert_sorted (x : A) (l : list A) : list A :=
  match l with
  | [] => [x]
  | y :: l' => if leb x y then x :: l else y :: insert_sorted x l'
  end.

Fixpoint isort (l : list A) : list A :=
  match l with
  | [] => []
  | x :: l' => insert_sorted x (isort l')
  end.
End Isort.

(** ** Cells, columns, frames *)

Inductive cell : Type :=
| CNum (x : Q)
| CStr (s : string)
| CNaN.

Abbreviation Series := (list cell).
Abbreviation DataFrame := (gmap string (list cell)).

(** [col in df.columns] *)
Definition has_column (col : string) (df : DataFrame) : bool :=
  match df !! col with
  | Some _ => true
  | None => false
  end.

(** [df[col]] *)
Definition get_column (df : DataFrame) (col : string) : result Series :=
  match df !! col with
  | Some s => Ok s
  | None => Raise KeyError
  end.

Definition notna (c : cell) : bool :=
  match c with
  | CNaN => false
  | _ => true
  end.

(** [s.dropna()] *)
Definition dropna (s : Series) : Series := List.filter notna s.

(** Equality of the keys of pandas' hash tables. *)
Definition cell_eqb (a b : cell) : bool :=
  match a, b with
  | CNum x, CNum y => Qeq_bool x y
  | CStr s, CStr t => String.eqb s t
  | CNaN, CNaN => true
  | _, _ => false
  end.

Definition is_num (c : cell) : bool :=
  match c with
  | CNum _ => true
  | _ => false
  end.

Definition is_str (c : cell) : bool :=
  match c with
  | CStr _ => true
  | _ => false
  end.

(** Order used when sorting values: numbers by value, then strings by
    code point, then missing. *)
Definition cell_leb (a b : cell) : bool :=
  match a, b with
  | CNum x, CNum y => Qle_bool x y
  | CNum _, _ => true
  | CStr _, CNum _ => false
  | CStr s, CStr t => String.leb s t
  | CStr _, CNaN => true
  | CNaN, CNaN => true
  | CNaN, _ => false
  end.

(** Distinct values in order of first occurrence. *)
Fixpoint uniques (s : Series) : Series :=
  match s with
  | [] => []
  | x :: s' => x :: List.filter (fun y => negb (cell_eqb x y)) (uniques s')
  end.

Definition count_of (x : cell) (s : Series) : nat :=
  List.length (List.filter (cell_eqb x) s).

Definition max_count (s : Series) : nat :=
  fold_right (fun x m => Nat.max (count_of x s) m) O s.

(** [s.mode()] (with [dropna=True]): the most frequent non-missing
    values, sorted when they can be compared (all numbers or all
    strings), otherwise left in order of first occurrence. *)
Definition mode (s : Series) : Series :=
  let v := dropna s in
  let m := max_count v in
  let modes := List.filter (fun x => Nat.eqb (count_of x v) m) (uniques v) in
  if forallb is_num modes || forallb is_str modes
  then isort cell_leb modes
  else modes.

(** The distinct values of [s] that occur most often: the modes before
    they are sorted. *)
Definition most_frequent (s : Series) : Series :=
  List.filter (fun x => Nat.eqb (count_of x s) (max_count s)) (uniques s).

(** [s.iloc[0]] *)
Definition iloc0 {A} (s : list A) : result A :=
  match s with
  | x :: _ => Ok x
  | [] => Raise IndexError
  end.

(** ** [int(x)] *)

(** Whitespace skipped by [int] around an ASCII literal. *)
Definition is_space (c : ascii) : bool :=
  let n := N_of_ascii c in
  (((9 <=? n) && (n <=? 13)) || (n =? 32))%N.

Definition digit_value (c : ascii) : option Z :=
  let n := N_of_ascii c in
  if ((48 <=? n) && (n <=? 57))%N then Some (Z.of_N n - 48) else None.

Fixpoint skip_spaces (s : string) : string :=
  match s with
  | String c s' => if is_space c then skip_spaces s' else s
  | EmptyString => EmptyString
  end.

(** Digits with single underscores between them; [prev_us] tells that the
    previous character was an underscore.  Returns the value, the number
    of digits and the unread rest. *)
Fixpoint scan_digits (s : string) (prev_us : bool) (acc : Z) (nd : nat)
  : option (Z * nat * string) :=
  match s with
  | String c s' =>
      match digit_value c with
      | Some d => scan_digits s' false (10 * acc + d) (S nd)
      | None =>
          if Ascii.eqb c "_" then
            if prev_us then None else scan_digits s' true acc nd
          else if prev_us then None else Some (acc, nd, s)
      end
  | EmptyString => if prev_us then None else Some (acc, nd, EmptyString)
  end.

(** CPython refuses decimal literals of more than this many digits. *)
Definition max_str_digits : nat := 4300.

Definition int_of_digits (s : string) : result Z :=
  match s with
  | String "_" _ => Raise ValueError
  | _ =>
      match scan_digits s false 0 O with
      | Some (v, nd, rest) =>
          if Nat.eqb nd 0 then Raise ValueError
          else if Nat.ltb max_str_digits nd then Raise ValueError
          else match skip_spaces rest with
               | EmptyString => Ok v
               | _ => Raise ValueError
               end
      | None => Raise ValueError
      end
  end.

(** [int(s)] for a string: spaces, an optional sign, digits. *)
Definition int_of_string (s : string) : result Z :=
  match skip_spaces s with
  | String "-" s' => let! v := int_of_digits s' in Ok (- v)
  | String "+" s' => int_of_digits s'
  | s' => int_of_digits s'
  end.

(** [int(x)]: a number is truncated towards zero, a string is parsed. *)
Definition py_int (c : cell) : result Z :=
  match c with
  | CNum x => Ok (Z.quot (Qnum x) (Zpos (Qden x)))
  | CStr s => int_of_string s
  | CNaN => Raise ValueError
  end.

(** ** Dates *)

Inductive Month : Set :=
| Jan | Feb | Mar | Apr | May | Jun | Jul | Aug | Sep | Oct | Nov | Dec.

Definition all_months : list Month :=
  [Jan; Feb; Mar; Apr; May; Jun; Jul; Aug; Sep; Oct; Nov; Dec].

(** [dt.month] *)
Definition month_number (m : Month) : Z :=
  match m with
  | Jan => 1 | Feb => 2 | Mar => 3 | Apr => 4 | May => 5 | Jun => 6
  | Jul => 7 | Aug => 8 | Sep => 9 | Oct => 10 | Nov => 11 | Dec => 12
  end.

(** The abbreviated month names of the C locale, as [%b] prints them. *)
Definition month_abbr (m : Month) : string :=
  match m with
  | Jan => "Jan" | Feb => "Feb" | Mar => "Mar" | Apr => "Apr"
  | May => "May" | Jun => "Jun" | Jul => "Jul" | Aug => "Aug"
  | Sep => "Sep" | Oct => "Oct" | Nov => "Nov" | Dec => "Dec"
  end.

Record datetime : Set := {
  dt_year : Z;
  dt_month : Month;
  dt_day : Z
}.

(** [dt.strftime("%b")] *)
Definition strftime_b (dt : datetime) : string := month_abbr (dt_month dt).

(** The [%b] directive of [strptime]: a month abbreviation in any case. *)
Definition parse_abbr (s : string) : option Month :=
  List.find (fun m => String.eqb (upper (month_abbr m)) (upper s)) all_months.

(** The [%Y] directive: exactly four decimal digits. *)
Definition parse_year (a b c d : ascii) : option Z :=
  match digit_value a, digit_value b, digit_value c, digit_value d with
  | Some x, Some y, Some z, Some w => Some (1000 * x + 100 * y + 10 * z + w)
  | _, _, _, _ => None
  end.

(** [datetime.strptime(s, "%b-%Y")]: the whole string must match, and
    year 0 is no [datetime]. *)
Definition strptime_bY (s : string) : result datetime :=
  match s with
  | String a (String b (String c (String "-"
      (String y1 (String y2 (String y3 (String y4 EmptyString))))))) =>
      match parse_abbr (String a (String b (String c EmptyString))),
            parse_year y1 y2 y3 y4 with
      | Some m, Some y =>
          if y =? 0 then Raise ValueError
          else Ok {| dt_year := y; dt_month := m; dt_day := 1 |}
      | _, _ => Raise ValueError
      end
  | _ => Raise ValueError
  end.

(** [strptime] wants a [str]. *)
Definition strptime_cell (c : cell) : result datetime :=
  match c with
  | CStr s => strptime_bY s
  | _ => Raise TypeError
  end.

(** ** Month Resolver: [extract_month] *)

Inductive Platform : Set := Amazon | Flipkart | Meesho.

Definition months : list string :=
  ["JAN"; "FEB"; "MAR"; "APR"; "MAY"; "JUN";
   "JUL"; "AUG"; "SEP"; "OCT"; "NOV"; "DEC"].

(** The pair [extract_month] returns: [(None, None)] or [(i, m)]. *)
Definition MonthResult : Type := option Z * option string.

Definition absent : MonthResult := (None, None).

(** [for i, m in enumerate(months, start=i): if m in name: return i, m] *)
Fixpoint scan_months (i : Z) (ms : list string) (name : string)
  : option (Z * string) :=
  match ms with
  | [] => None
  | m :: ms' =>
      if contains m name then Some (i, m) else scan_months (i + 1) ms' name
  end.

(** [for col in cols: if col in df.columns: date_column = col; break] *)
Fixpoint first_existing (cols : list string) (df : DataFrame) : option string :=
  match cols with
  | [] => None
  | c :: cols' => if has_column c df then Some c else first_existing cols' df
  end.

(** [dates.dt.month]: integers, or floats with NaN as soon as one date is
    NaT. *)
Definition dt_month_series (dates : list (option datetime)) : Series :=
  List.map (fun d => match d with
                     | Some d => CNum (inject_Z (month_number (dt_month d)))
                     | None => CNaN
                     end) dates.

Definition has_nat (dates : list (option datetime)) : bool :=
  existsb (fun d => match d with None => true | Some _ => false end) dates.

(** A numpy scalar used in a list index: only an integer one will do. *)
Definition np_index (float_dtype : bool) (c : cell) : result Z :=
  if float_dtype then Raise TypeError
  else match c with
       | CNum x => Ok (Z.quot (Qnum x) (Zpos (Qden x)))
       | _ => Raise TypeError
       end.

(** Line 26: [df['month_number'].dropna().mode().iloc[0]] *)
Definition month_number_mode (df : DataFrame) : result cell :=
  let! s := get_column df "month_number" in
  iloc0 (mode (dropna s)).

(** The [try] body of the Meesho branch (lines 26-27). *)
Definition meesho_month_number (df : DataFrame) : result MonthResult :=
  let! v := month_number_mode df in
  let! month_num := py_int v in
  let! m := py_getitem months (month_num - 1) in
  Ok (Some month_num, Some m).

(** ** Schema Mapper and Aggregator: the platform summary loop *)

Record ColumnMapping : Set := {
  sales_column : string;
  tax_column : string;
  region_column : string
}.

(** Lines 110-121: [total_col], [tax_col], [state_col]. *)
Definition column_mapping (platform : Platform) : ColumnMapping :=
  match platform with
  | Amazon =>
      {| sales_column := "Invoice Amount";
         tax_column := "Total Tax Amount";
         region_column := "Ship To State" |}
  | Flipkart =>
      {| sales_column := "Aggregate Taxable Value Rs.";
         tax_column := "IGST Amount Rs.";
         region_column := "Delivered State (PoS)" |}
  | Meesho =>
      {| sales_column := "total_invoice_value";
         tax_column := "tax_amount";
         region_column := "end_customer_state_new" |}
  end.

(** [a + b] on cell values: numbers add, strings concatenate. *)
Definition py_add (a b : cell) : result cell :=
  match a, b with
  | CNum x, CNum y => Ok (CNum (x + y))
  | CStr s, CStr t => Ok (CStr (s +:+ t))
  | _, _ => Raise TypeError
  end.

Definition fillna0 (c : cell) : cell :=
  match c with
  | CNaN => CNum 0
  | _ => c
  end.

(** [s.sum()] (with [skipna=True]): missing cells count as 0 and the
    remaining values are added from left to right. *)
Definition series_sum (s : Series) : result cell :=
  match List.map fillna0 s with
  | [] => Ok (CNum 0)
  | x :: xs => fold_left (fun acc y => let! a := acc in py_add a y) xs (Ok x)
  end.

(** The value shown by [f"{v:,.2f}"]: only a number has that format. *)
Definition format_amount (v : cell) : result Q :=
  match v with
  | CNum x => Ok x
  | _ => Raise ValueError
  end.

Fixpoint mapM {A B} (f : A -> result B) (l : list A) : result (list B) :=
  match l with
  | [] => Ok []
  | x :: l' => let! y := f x in let! ys := mapM f l' in Ok (y :: ys)
  end.

(** The rows of one group. *)
Definition group_rows (k : cell) (rows : list (cell * cell)) : Series :=
  List.map snd (List.filter (fun kv => cell_eqb k (fst kv)) rows).

(** [df.groupby(key)[val].sum()]: rows with a missing key are dropped,
    the groups come in sorted key order and each holds the sum of its
    rows.  The sums are compared as numbers by the sort that follows;
    the column has been summed and formatted as a number before. *)
Definition groupby_sum (keys vals : Series) : result (list (cell * Q)) :=
  let rows := List.filter (fun kv => notna (fst kv)) (combine keys vals) in
  mapM (fun k => let! v := series_sum (group_rows k rows) in
                 let! x := format_amount v in
                 Ok (k, x))
       (isort cell_leb (uniques (List.map fst rows))).

(** What one iteration of the loop puts on the page. *)
Inductive widget : Type :=
| Heading (platform : Platform) (month : string)
| Metric (label : string) (value : Q)
| Caption (platform : Platform)
| Table (rows : list (cell * Q))
| BarPlot (rows : list (cell * Q))
| Warning (platform : Platform) (total_col tax_col : string).

(** The accumulators of the page: [sales_summary], [tax_summary] and the
    widgets emitted so far. *)
Record PageState : Type := {
  sales_summary : list (Platform * cell);
  tax_summary : list (Platform * cell);
  page : list widget
}.

Definition empty_page : PageState :=
  {| sales_summary := []; tax_summary := []; page := [] |}.

Record PlatformSummary : Type := {
  platform : Platform;
  month : string;
  present : bool;
  total_sales : option Q;
  total_tax : option Q;
  region_breakdown : list (cell * Q)
}.

(** [data['month'] or "Unknown"] *)
Definition month_or_unknown (m : MonthResult) : string :=
  match snd m with
  | Some s => if String.eqb s "" then "Unknown" else s
  | None => "Unknown"
  end.

(** Line 124: [total_col in df.columns and tax_col in df.columns] *)
Definition both_columns (p : Platform) (df : DataFrame) : bool :=
  has_column (sales_column (column_mapping p)) df
  && has_column (tax_column (column_mapping p)) df.

(** Descending order of the summed sales. *)
Definition sales_desc (a b : cell * Q) : Prop := (snd b <= snd a)%Q.

(** ** The page: accumulated summaries and the overall chart *)

(** What lines 152-163 hand to the bar chart: the tick labels are the
    platforms of [sales_summary], the two series of bars the values of
    [sales_summary] and of [tax_summary]. *)
Record Chart : Type := {
  xticklabels : list Platform;
  sales_bars : list cell;
  tax_bars : list cell
}.

(** Lines 151-168: [if sales_summary and tax_summary: ...] *)
Definition overall_chart (st : PageState) : option Chart :=
  match sales_summary st, tax_summary st with
  | _ :: _, _ :: _ =>
      Some {| xticklabels := List.map fst (sales_summary st);
              sales_bars := List.map snd (sales_summary st);
              tax_bars := List.map snd (tax_summary st) |}
  | _, _ => None
  end.

(** ** File names: [os.path.splitext] and [str.lower] *)

Definition lower_ascii (c : ascii) : ascii :=
  let n := N_of_ascii c in
  if ((65 <=? n) && (n <=? 90))%N then ascii_of_N (n + 32) else c.

(** [s.lower()] *)
Fixpoint lower (s : string) : string :=
  match s with
  | EmptyString => EmptyString
  | String c s' => String (lower_ascii c) (lower s')
  end.

(** [s.rfind(c)] for a character: the last index of [c], if any. *)
Fixpoint rfind_char (c : ascii) (s : string) : option nat :=
  match s with
  | EmptyString => None
  | String a s' =>
      match rfind_char c s' with
      | Some i => Some (S i)
      | None => if Ascii.eqb a c then Some O else None
      end
  end.

Definition index_or_minus_one (i : option nat) : Z :=
  match i with
  | Some n => Z.of_nat n
  | None => -1
  end.

(** Some character of [s] is not [c]. *)
Fixpoint has_other_char (c : ascii) (s : string) : bool :=
  match s with
  | EmptyString => false
  | String a s' => negb (Ascii.eqb a c) || has_other_char c s'
  end.

(** [os.path.splitext(p)] with the POSIX separators: the extension
    starts at the last dot, when that dot comes after the last slash and
    after some character of the file name that is not a dot. *)
Definition splitext (p : string) : string * string :=
  let sepIndex := index_or_minus_one (rfind_char "/" p) in
  let dotIndex := index_or_minus_one (rfind_char "." p) in
  if (sepIndex <? dotIndex)
     && has_other_char "." (substring (Z.to_nat (sepIndex + 1))
                                      (Z.to_nat (dotIndex - sepIndex - 1)) p)
  then (substring 0 (Z.to_nat dotIndex) p,
        substring (Z.to_nat dotIndex) (String.length p - Z.to_nat dotIndex) p)
  else (p, EmptyString).

(** ** Reference instances of the library functions

    One concrete function for each variable above, used to run the
    program on example ledgers. *)

(** A stable descending sort of the group sums. *)
Definition sort_desc_stable (l : list (cell * Q)) : list (cell * Q) :=
  isort (fun a b => Qle_bool (snd b) (snd a)) l.

Definition is_leap (y : Z) : bool :=
  ((y mod 4 =? 0) && negb (y mod 100 =? 0)) || (y mod 400 =? 0).

Definition days_in_month (y : Z) (m : Month) : Z :=
  match m with
  | Feb => if is_leap y then 29 else 28
  | Apr | Jun | Sep | Nov => 30
  | _ => 31
  end.

Definition parse_two (a b : ascii) : option Z :=
  match digit_value a, digit_value b with
  | Some x, Some y => Some (10 * x + y)
  | _, _ => None
  end.

(** A date written [YYYY-MM-DD]. *)
Definition parse_iso_date (s : string) : option datetime :=
  match s with
  | String y1 (String y2 (String y3 (String y4 (String "-"
      (String m1 (String m2 (String "-"
        (String d1 (String d2 EmptyString))))))))) =>
      match parse_year y1 y2 y3 y4, parse_two m1 m2, parse_two d1 d2 with
      | Some y, Some mo, Some d =>
          match List.find (fun m => month_number m =? mo) all_months with
          | Some m =>
              if (1 <=? y) && (1 <=? d) && (d <=? days_in_month y m)
              then Some {| dt_year := y; dt_month := m; dt_day := d |}
              else None
          | None => None
          end
      | _, _, _ => None
      end
  | _ => None
  end.

(** An instance of [to_datetime] for columns of ISO dates: every other
    cell becomes NaT. *)
Definition to_datetime_iso (s : Series) : result (list (option datetime)) :=
  Ok (List.map (fun c => match c with
                         | CStr t => parse_iso_date t
                         | _ => None
                         end) s).

(** An instance of [num_str]: the text of an integral float, as in
    ["5.0"]. *)
Definition num_str_integral (x : Q) : string :=
  pretty (Z.quot (Qnum x) (Zpos (Qden x))) +:+ ".0".

(** ** Words of the specification *)

(** [sub] occurs in [s] as a literal substring. *)
Definition substring_of (sub s : string) : Prop :=
  exists a b, s = a +:+ sub +:+ b.

(** The filename holds none of the twelve month codes, in any case. *)
Definition no_month_code (file_name : string) : Prop :=
  forall m, In m months -> ~ substring_of m (upper file_name).

(** A cell counts for its number, anything else for 0. *)
Definition cell_amount (c : cell) : Q :=
  match c with
  | CNum x => x
  | _ => 0%Q
  end.

(** Sum of a column where non-numeric and missing cells contribute 0. *)
Definition spec_total (s : Series) : Q :=
  fold_right (fun c acc => (cell_amount c + acc)%Q) 0%Q s.

(** A column of numbers and missing cells. *)
Definition numeric (s : Series) : Prop :=
  forall c, In c s -> is_str c = false.

(** Summed sales of the rows whose region is [k]. *)
Definition region_total (k : cell) (regions sales : Series) : Q :=
  spec_total (group_rows k (combine regions sales)).

(** No two entries of a breakdown are for the same region. *)
Definition distinct_regions (l : list (cell * Q)) : Prop :=
  ForallOrdPairs (fun a b => cell_eqb a b = false) (List.map fst l).



(** The entries of [platform_data] that have both required columns, and
    their platforms. *)
Definition present_entries (data : list (Platform * DataFrame * MonthResult))
  : list (Platform * DataFrame * MonthResult) :=
  List.filter (fun e => both_columns (fst (fst e)) (snd (fst e))) data.

Definition present_platforms (data : list (Platform * DataFrame * MonthResult))
  : list Platform :=
  List.map (fun e => fst (fst e)) (present_entries data).

(** [v] is the sum of column [col] of the frame of entry [e], a
    number, and stands under the platform of [e]. *)
Definition column_total (col : Platform -> string)
    (e : Platform * DataFrame * MonthResult) (pv : Platform * cell) : Prop :=
  fst pv = fst (fst e) /\
  exists s x, snd (fst e) !! col (fst (fst e)) = Some s /\
              series_sum s = Ok (CNum x) /\ snd pv = CNum x.

(** The columns [extract_month] consults for a platform. *)
Definition month_columns (p : Platform) : list string :=
  match p with
  | Meesho => ["month_number"; "order_date"]
  | Amazon => ["Invoice Date"; "Order Date"; "Shipment Date"]
  | Flipkart => ["Amended Period"]
  end.

(** How many of the dates fall in month [k]. *)
Definition month_count (k : Z) (dates : list (option datetime)) : nat :=
  List.length
    (List.filter (fun d => match d with
                           | Some d => month_number (dt_month d) =? k
                           | None => false
                           end) dates).

(** ** Example ledgers *)

(** Sales [100, 200, missing] and tax [10, 20, 30] under the column names
    of platform [p]. *)
Definition totals_ledger (p : Platform) : DataFrame :=
  {[ sales_column (column_mapping p) := [CNum 100; CNum 200; CNaN];
     tax_column (column_mapping p) := [CNum 10; CNum 20; CNum 30] ]}.

(** Meesho: [month_number] says July. *)
Definition meesho_july_ledger : DataFrame :=
  {[ "month_number" := [CNum 7; CNum 7; CNum 3] ]}.

(** Meesho: [month_number] says May, [order_date] says March. *)
Definition meesho_may_ledger : DataFrame :=
  {[ "month_number" := [CNum 5; CNum 5; CNum 3; CNaN];
     "order_date" := [CStr "2024-03-01"; CStr "2024-03-02";
                      CStr "2024-03-03"; CStr "2024-03-04"] ]}.

(** Meesho: a [month_number] of 0. *)
Definition meesho_zero_ledger : DataFrame :=
  {[ "month_number" := [CNum 0] ]}.

(** Meesho: a [month_number] that is no number, dates in March. *)
Definition meesho_text_ledger : DataFrame :=
  {[ "month_number" := [CStr "n/a"];
     "order_date" := [CStr "2024-03-01"] ]}.

Definition flipkart_april_ledger : DataFrame :=
  {[ "Amended Period" := [CStr "Apr-2025"; CStr "Apr-2025"; CNaN] ]}.

(** Amazon: the sales column without the tax column. *)
Definition amazon_sales_only_ledger : DataFrame :=
  {[ "Invoice Amount" := [CNum 100; CNum 200] ]}.



(** Amazon: regions A: 50, B: 200, C: 200, D: 10, one row without a
    region. *)
Definition amazon_region_ledger : DataFrame :=
  {[ "Invoice Amount" := [CNum 20; CNum 200; CNum 120; CNum 30;
                          CNum 10; CNum 80; CNum 999];
     "Total Tax Amount" := [CNum 1; CNum 2; CNum 3; CNum 4;
                            CNum 5; CNum 6; CNum 7];
     "Ship To State" := [CStr "A"; CStr "B"; CStr "C"; CStr "A";
                         CStr "D"; CStr "C"; CNaN] ]}.

(** Amazon: one [Invoice Date] that is no date, [Order Date] all in
    April. *)
Definition amazon_dates_ledger : DataFrame :=
  {[ "Invoice Date" := [CStr "2024-03-05"; CStr "pending"; CStr "2024-03-07"];
     "Order Date" := [CStr "2024-04-01"; CStr "2024-04-02"; CStr "2024-04-03"] ]}.

(** Amazon: order dates in April (twice), May (twice) and June. *)
Definition amazon_order_dates : Series :=
  [CStr "2024-05-02"; CStr "2024-04-01"; CStr "2024-06-01";
   CStr "2024-04-03"; CStr "2024-05-09"].

Definition amazon_order_ledger : DataFrame :=
  {[ "Order Date" := amazon_order_dates ]}.

(** What [to_datetime_iso] makes of these dates. *)
Definition amazon_order_parsed : list (option datetime) :=
  List.map (fun c => match c with
                     | CStr t => parse_iso_date t
                     | _ => None
                     end) amazon_order_dates.

(** A [platform_data] of three uploads; the Flipkart one lacks its
    columns. *)
Definition page_data : list (Platform * DataFrame * MonthResult) :=
  [(Amazon, amazon_region_ledger, (Some 3, Some "MAR"));
   (Flipkart, flipkart_april_ledger, (Some 4, Some "APR"));
   (Meesho, totals_ledger Meesho, absent)].

(** Uploaded files for the examples: a name and the frame the readers
    find in the file. *)
Definition sample_file : Type := string * DataFrame.

Definition sample_reader (f : sample_file) : result DataFrame := Ok (snd f).

(** * The program *)

Section App.
(** [str(x)] of a number, as [astype(str)] renders it. *)
Variable num_str : Q -> string.
(** [pd.to_datetime(s, errors='coerce')]; [None] is NaT. *)
Variable to_datetime : Series -> result (list (option datetime)).

Definition astype_str (c : cell) : cell :=
  match c with
  | CNum x => CStr (num_str x)
  | CStr s => CStr s
  | CNaN => CStr "nan"
  end.

(** Line 40: [df['Amended Period'].dropna().astype(str).mode().iloc[0]] *)
Definition amended_period_mode (df : DataFrame) : result cell :=
  let! s := get_column df "Amended Period" in
  iloc0 (mode (List.map astype_str (dropna s))).

(** The [try] body of the Flipkart branch (lines 40-42). *)
Definition flipkart_amended_period (df : DataFrame) : result MonthResult :=
  let! month_str := amended_period_mode df in
  let! dt := strptime_cell month_str in
  Ok (Some (month_number (dt_month dt)), Some (upper (strftime_b dt))).

(** The [try] body of the date-column step (lines 48-50). *)
Definition date_column_month (df : DataFrame) (col : string)
  : result MonthResult :=
  let! s := get_column df col in
  let! dates := to_datetime s in
  let! v := iloc0 (mode (dt_month_series dates)) in
  let! month_num := np_index (has_nat dates) v in
  let! m := py_getitem months (month_num - 1) in
  Ok (Some month_num, Some m).

(** Lines 46-54: [if date_column: try ... except: pass] and the final
    [return None, None]. *)
Definition from_date_column (df : DataFrame) (date_column : option string)
  : result MonthResult :=
  match date_column with
  | Some col => try_except (date_column_month df col) (Ok absent)
  | None => Ok absent
  end.

Definition extract_month (file_name : string) (df : DataFrame)
    (platform : Platform) : result MonthResult :=
  match scan_months 1 months (upper file_name) with
  | Some (i, m) => Ok (Some i, Some m)
  | None =>
      match platform with
      | Meesho =>
          if has_column "month_number" df then
            try_except (meesho_month_number df) (Ok absent)
          else if has_column "order_date" df then
            from_date_column df (Some "order_date")
          else from_date_column df None
      | Amazon =>
          from_date_column df
            (first_existing ["Invoice Date"; "Order Date"; "Shipment Date"] df)
      | Flipkart =>
          if has_column "Amended Period" df then
            try_except (flipkart_amended_period df) (from_date_column df None)
          else from_date_column df None
      end
  end.

(** [s.sort_values(ascending=False)] on the group sums.  The default
    sorting routine is not a stable one, so the order of equal sums is
    left to it. *)
Variable sort_values_desc : list (cell * Q) -> list (cell * Q).

(** The body of the loop over [platform_data] (lines 106-148). *)
Definition summarize_step (p : Platform) (df : DataFrame) (m : MonthResult)
    (st : PageState) : result (PlatformSummary * PageState) :=
  let label := month_or_unknown m in
  let cm := column_mapping p in
  if both_columns p df then
    let! sales := get_column df (sales_column cm) in
    let! total_sales := series_sum sales in
    let! tax := get_column df (tax_column cm) in
    let! total_tax := series_sum tax in
    let sales' := sales_summary st ++ [(p, total_sales)] in
    let tax' := tax_summary st ++ [(p, total_tax)] in
    let! shown_sales := format_amount total_sales in
    let! shown_tax := format_amount total_tax in
    let page' := page st ++ [Heading p label;
                             Metric "Total Sales" shown_sales;
                             Metric "Total GST" shown_tax] in
    if has_column (region_column cm) df then
      let! regions := get_column df (region_column cm) in
      let! groups := groupby_sum regions sales in
      let state_sales := sort_values_desc groups in
      let top := firstn 10 state_sales in
      Ok ({| platform := p; month := label; present := true;
             total_sales := Some shown_sales; total_tax := Some shown_tax;
             region_breakdown := top |},
          {| sales_summary := sales'; tax_summary := tax';
             page := page' ++ [Caption p; Table top; BarPlot top] |})
    else
      Ok ({| platform := p; month := label; present := true;
             total_sales := Some shown_sales; total_tax := Some shown_tax;
             region_breakdown := [] |},
          {| sales_summary := sales'; tax_summary := tax'; page := page' |})
  else
    Ok ({| platform := p; month := label; present := false;
           total_sales := None; total_tax := None;
           region_breakdown := [] |},
        {| sales_summary := sales_summary st; tax_summary := tax_summary st;
           page := page st ++ [Warning p (sales_column cm) (tax_column cm)] |}).

(** The spec's [summarize]: the summary of one iteration on a fresh
    page. *)
Definition summarize (p : Platform) (df : DataFrame) (m : MonthResult)
  : result PlatformSummary :=
  let! r := summarize_step p df m empty_page in Ok (fst r).

(** Two iterations in a row over the same ledger. *)
Definition summarize_twice (p : Platform) (df : DataFrame) (m : MonthResult)
    (st : PageState) : result (PlatformSummary * PlatformSummary) :=
  let! r1 := summarize_step p df m st in
  let! r2 := summarize_step p df m (snd r1) in
  Ok (fst r1, fst r2).

(** Lines 105-148: the loop over [platform_data.items()]; an exception
    in one iteration ends the run. *)
Fixpoint summary_loop (data : list (Platform * DataFrame * MonthResult))
    (st : PageState) : result PageState :=
  match data with
  | [] => Ok st
  | (p, df, m) :: rest =>
      let! r := summarize_step p df m st in summary_loop rest (snd r)
  end.

(** Lines 100-168, for a [platform_data] that is not empty: the loop on
    a fresh page, then the overall chart. *)
Definition summary_page (data : list (Platform * DataFrame * MonthResult))
  : result (PageState * option Chart) :=
  let! st := summary_loop data empty_page in Ok (st, overall_chart st).

(** An uploaded file, its [name], and the two pandas readers. *)
Variable UploadedFile : Type.
Variable file_name : UploadedFile -> string.
Variable read_csv : UploadedFile -> result DataFrame.
Variable read_excel : UploadedFile -> result DataFrame.

(** Lines 58-66. *)
Definition load_file (uploaded_file : option UploadedFile)
  : result (option DataFrame) :=
  match uploaded_file with
  | None => Ok None
  | Some f =>
      let file_ext := lower (snd (splitext (file_name f))) in
      if String.eqb file_ext ".csv" then
        let! df := read_csv f in Ok (Some df)
      else if String.eqb file_ext ".xls" || String.eqb file_ext ".xlsx" then
        let! df := read_excel f in Ok (Some df)
      else Ok None
  end.

(** * Properties *)

(** ** Strings *)

Lemma append_cons (c : ascii) (s t : string) :
  String c s +:+ t = String c (s +:+ t).
Proof. reflexivity. Qed.

Lemma append_nil (t : string) : EmptyString +:+ t = t.
Proof. reflexivity. Qed.

Lemma prefix_app (sub s : string) :
  String.prefix sub s = true <-> exists b, s = sub +:+ b.
Proof.
  revert s. induction sub as [|a sub IH]; intros s; simpl.
  - destruct s; split; eauto.
  - destruct s as [|b s]; simpl.
    + split; [discriminate |].
      intros [t Ht]; rewrite append_cons in Ht; discriminate.
    + destruct (ascii_dec a b) as [->|Hne].
      * rewrite IH. split; intros [t Ht]; exists t;
          rewrite append_cons in *; congruence.
      * split; [discriminate |].
        intros [t Ht]; rewrite append_cons in Ht; congruence.
Qed.

Lemma contains_spec (sub s : string) :
  contains sub s = true <-> substring_of sub s.
Proof.
  unfold substring_of. induction s as [|c s IH].
  - cbn [contains]. rewrite orb_false_r, prefix_app. split.
    + intros [b Hb]. exists EmptyString, b. exact Hb.
    + intros [a [b Hab]]. destruct a.
      * rewrite append_nil in Hab. eauto.
      * rewrite append_cons in Hab. discriminate.
  - cbn [contains]. rewrite orb_true_iff, prefix_app, IH. split.
    + intros [[b Hb] | [a [b Hab]]].
      * exists EmptyString, b. exact Hb.
      * exists (String c a), b. rewrite append_cons. congruence.
    + intros [a [b Hab]]. destruct a as [|c' a].
      * left. rewrite append_nil in Hab. eauto.
      * right. rewrite append_cons in Hab. exists a, b. congruence.
Qed.

Lemma contains_false (sub s : string) :
  contains sub s = false <-> ~ substring_of sub s.
Proof.
  rewrite <- contains_spec. destruct (contains sub s); split; congruence.
Qed.

(** ** The filename scan *)

Lemma scan_months_none (i : Z) (ms : list string) (name : string) :
  scan_months i ms name = None <->
  forall m, In m ms -> ~ substring_of m name.
Proof.
  revert i. induction ms as [|m ms IH]; intros i; simpl.
  - split; [intros _ m [] | reflexivity].
  - destruct (contains m name) eqn:E.
    + split; [discriminate |].
      intros H. exfalso. apply (H m); [now left | now apply contains_spec].
    + rewrite IH. apply contains_false in E. split.
      * intros H m' [<- | Hin]; auto.
      * intros H m' Hin. apply H. now right.
Qed.

Lemma scan_months_some (i : Z) (ms : list string) (name : string) j m :
  scan_months i ms name = Some (j, m) ->
  exists k : nat,
    nth_error ms k = Some m /\ j = i + Z.of_nat k /\
    substring_of m name /\
    forall k' m', (k' < k)%nat -> nth_error ms k' = Some m' ->
                  ~ substring_of m' name.
Proof.
  revert i. induction ms as [|m0 ms IH]; intros i; simpl; [discriminate |].
  destruct (contains m0 name) eqn:E.
  - intros [= <- <-]. exists O. repeat split.
    + lia.
    + now apply contains_spec.
    + intros k' m' Hk. lia.
  - intros H. destruct (IH _ H) as (k & Hn & Hj & Hs & Hmin).
    exists (S k). repeat split; auto.
    + lia.
    + intros [|k'] m' Hk Hn'; simpl in Hn'.
      * injection Hn' as <-. now apply contains_false.
      * apply (Hmin k'); [lia | assumption].
Qed.

Lemma scan_months_found (i : Z) (ms : list string) (name : string) :
  (exists m, In m ms /\ substring_of m name) ->
  exists j m, scan_months i ms name = Some (j, m).
Proof.
  intros (m & Hin & Hs).
  destruct (scan_months i ms name) as [[j m']|] eqn:E; [eauto |].
  exfalso. rewrite scan_months_none in E. exact (E m Hin Hs).
Qed.

(** ** Sorting and modes *)

Lemma insert_sorted_perm {A} (leb : A -> A -> bool) (x : A) (l : list A) :
  Permutation (insert_sorted leb x l) (x :: l).
Proof.
  induction l as [|y l IH]; simpl; [reflexivity |].
  destruct (leb x y); [reflexivity |].
  rewrite IH. apply perm_swap.
Qed.

Lemma isort_perm {A} (leb : A -> A -> bool) (l : list A) :
  Permutation (isort leb l) l.
Proof.
  induction l as [|x l IH]; simpl; [reflexivity |].
  rewrite insert_sorted_perm. now apply perm_skip.
Qed.

Lemma insert_sorted_sorted {A} (leb : A -> A -> bool) (x : A) (l : list A) :
  (forall a b, leb a b = false -> leb b a = true) ->
  (forall a b c, leb a b = true -> leb b c = true -> leb a c = true) ->
  StronglySorted (fun a b => leb a b = true) l ->
  StronglySorted (fun a b => leb a b = true) (insert_sorted leb x l).
Proof.
  intros Htot Htrans. induction 1 as [|y l Hs IH Hy]; simpl.
  - repeat constructor.
  - destruct (leb x y) eqn:E.
    + constructor; [now constructor |].
      constructor; [assumption |].
      eapply List.Forall_impl; [| exact Hy]. intros z Hz. eauto.
    + constructor; [assumption |].
      rewrite insert_sorted_perm. constructor; auto.
  Qed.

Lemma isort_sorted {A} (leb : A -> A -> bool) (l : list A) :
  (forall a b, leb a b = false -> leb b a = true) ->
  (forall a b c, leb a b = true -> leb b c = true -> leb a c = true) ->
  StronglySorted (fun a b => leb a b = true) (isort leb l).
Proof.
  intros Htot Htrans. induction l as [|x l IH]; simpl.
  - constructor.
  - now apply insert_sorted_sorted.
Qed.

Lemma StronglySorted_weaken {A} (R S : A -> A -> Prop) (l : list A) :
  (forall a b, R a b -> S a b) -> StronglySorted R l -> StronglySorted S l.
Proof.
  intros HRS. induction 1 as [|x l Hs IH Hx]; constructor; auto.
  eapply List.Forall_impl; [| exact Hx]. auto.
Qed.

Lemma sort_desc_stable_perm (l : list (cell * Q)) :
  Permutation (sort_desc_stable l) l.
Proof. apply isort_perm. Qed.

Lemma sort_desc_stable_sorted (l : list (cell * Q)) :
  StronglySorted sales_desc (sort_desc_stable l).
Proof.
  unfold sort_desc_stable.
  eapply StronglySorted_weaken; [| apply isort_sorted].
  - intros a b H. now apply Qle_bool_iff in H.
  - intros a b H. apply Qle_bool_iff.
    destruct (Qlt_le_dec (snd b) (snd a)) as [Hlt | Hle]; [| assumption].
    exfalso. apply Qlt_le_weak, Qle_bool_iff in Hlt. congruence.
  - intros a b c H1 H2. apply Qle_bool_iff in H1, H2. apply Qle_bool_iff.
    now apply Qle_trans with (snd b).
Qed.

Lemma numeric_forallb (s : Series) :
  forallb (fun c => negb (is_str c)) s = true -> numeric s.
Proof.
  intros H c Hc. rewrite forallb_forall in H.
  apply H in Hc. now apply negb_true_iff in Hc.
Qed.

Lemma In_uniques (x : cell) (s : Series) : In x (uniques s) -> In x s.
Proof.
  induction s as [|y s IH]; simpl; [tauto |].
  intros [-> | H]; [now left |].
  apply List.filter_In in H as [H _]. right. auto.
Qed.

Lemma In_mode (x : cell) (s : Series) : In x (mode s) -> In x s.
Proof.
  unfold mode. intros H.
  assert (H' : In x (List.filter
                       (fun x => Nat.eqb (count_of x (dropna s))
                                         (max_count (dropna s)))
                       (uniques (dropna s)))).
  { destruct (_ || _); [| assumption].
    eapply Permutation_in; [apply isort_perm | exact H]. }
  apply List.filter_In in H' as [H' _]. apply In_uniques in H'.
  unfold dropna in H'. now apply List.filter_In in H' as [H' _].
Qed.

(** ** Keys *)

Lemma cell_eqb_refl (a : cell) : cell_eqb a a = true.
Proof.
  destruct a as [x | s |]; simpl; [| apply String.eqb_refl | reflexivity].
  apply Qeq_bool_iff. reflexivity.
Qed.

Lemma cell_eqb_sym (a b : cell) : cell_eqb a b = cell_eqb b a.
Proof.
  destruct a as [x | s |], b as [y | t |]; simpl; try reflexivity.
  - destruct (Qeq_bool x y) eqn:E, (Qeq_bool y x) eqn:E'; try reflexivity.
    + apply Qeq_bool_iff in E. symmetry in E. apply Qeq_bool_iff in E. congruence.
    + apply Qeq_bool_iff in E'. symmetry in E'. apply Qeq_bool_iff in E'. congruence.
  - apply String.eqb_sym.
Qed.

Lemma cell_eqb_trans (a b c : cell) :
  cell_eqb a b = true -> cell_eqb b c = true -> cell_eqb a c = true.
Proof.
  destruct a as [x | s |], b as [y | t |], c as [z | u |]; simpl;
    try discriminate; try reflexivity.
  - intros H1 H2. apply Qeq_bool_iff in H1, H2. apply Qeq_bool_iff.
    now rewrite H1.
  - intros H1 H2. apply String.eqb_eq in H1, H2. apply String.eqb_eq. congruence.
Qed.

Lemma cell_eqb_notna (a b : cell) :
  cell_eqb a b = true -> notna a = true -> notna b = true.
Proof. destruct a, b; simpl; congruence. Qed.

Lemma FOP_filter {A} (R : A -> A -> Prop) (f : A -> bool) (l : list A) :
  ForallOrdPairs R l -> ForallOrdPairs R (List.filter f l).
Proof.
  induction 1 as [|x l Hx Hl IH]; simpl; [constructor |].
  destruct (f x); [| assumption].
  constructor; [| assumption].
  apply List.Forall_forall. intros y Hy. apply List.filter_In in Hy as [Hy _].
  revert y Hy. now apply List.Forall_forall.
Qed.

Lemma FOP_firstn {A} (R : A -> A -> Prop) (n : nat) (l : list A) :
  ForallOrdPairs R l -> ForallOrdPairs R (firstn n l).
Proof.
  intros H. revert n. induction H as [|x l Hx Hl IH]; intros [|n]; simpl;
    try constructor; auto.
  apply List.Forall_forall. intros y Hy.
  assert (Hin : In y l) by (rewrite <- (firstn_skipn n l); apply in_or_app; auto).
  clear Hy. revert y Hin. now apply List.Forall_forall.
Qed.

Lemma FOP_perm {A} (R : A -> A -> Prop) (l l' : list A) :
  (forall a b, R a b -> R b a) ->
  Permutation l l' -> ForallOrdPairs R l -> ForallOrdPairs R l'.
Proof.
  intros Hsym. induction 1 as [| x l l' Hp IH | x y l | l l' l'' H1 IH1 H2 IH2];
    intros H; auto.
  - inversion H as [| ? ? Hx Hl]; subst. constructor; auto.
    eapply Permutation_Forall; eauto.
  - inversion H as [| ? ? Hy Hl]; subst.
    inversion Hl as [| ? ? Hx Hl']; subst.
    inversion Hy as [| ? ? Hyx Hyl]; subst.
    repeat constructor; auto.
Qed.

Lemma uniques_distinct (s : Series) :
  ForallOrdPairs (fun a b => cell_eqb a b = false) (uniques s).
Proof.
  induction s as [|x s IH]; simpl; constructor.
  - apply List.Forall_forall. intros y Hy.
    apply List.filter_In in Hy as [_ Hy]. now apply negb_true_iff in Hy.
  - now apply FOP_filter.
Qed.

Lemma uniques_complete (x : cell) (s : Series) :
  In x s -> exists y, In y (uniques s) /\ cell_eqb y x = true.
Proof.
  induction s as [|z s IH]; simpl; [tauto |].
  intros [-> | Hin].
  - exists x. split; [now left | apply cell_eqb_refl].
  - destruct (IH Hin) as (y & Hy & Hyx).
    destruct (cell_eqb z y) eqn:E.
    + exists z. split; [now left |]. now apply cell_eqb_trans with y.
    + exists y. split; [| assumption]. right.
      apply List.filter_In. split; [assumption |]. now rewrite E.
Qed.

(** ** Sums *)

Lemma sum_numeric_from (a : Q) (s : Series) :
  numeric s ->
  exists x,
    fold_left (fun acc y => let! v := acc in py_add v y)
              (List.map fillna0 s) (Ok (CNum a)) = Ok (CNum x)
    /\ (x == a + spec_total s)%Q.
Proof.
  revert a. induction s as [|c s IH]; intros a Hn; simpl.
  - exists a. split; [reflexivity | ring].
  - assert (Hc : is_str c = false) by (apply Hn; now left).
    assert (Hs : numeric s) by (intros d Hd; apply Hn; now right).
    destruct c as [y | t |]; simpl in *; try discriminate.
    + destruct (IH (a + y)%Q Hs) as (x & Hx & Hq).
      exists x. split; [assumption |]. rewrite Hq. ring.
    + destruct (IH (a + 0)%Q Hs) as (x & Hx & Hq).
      exists x. split; [assumption |]. rewrite Hq. ring.
Qed.

Lemma series_sum_numeric (s : Series) :
  numeric s ->
  exists x, series_sum s = Ok (CNum x) /\ (x == spec_total s)%Q.
Proof.
  intros Hn. unfold series_sum. destruct s as [|c s]; simpl.
  - exists 0%Q. split; reflexivity.
  - assert (Hc : is_str c = false) by (apply Hn; now left).
    assert (Hs : numeric s) by (intros d Hd; apply Hn; now right).
    destruct c as [y | t |]; simpl in *; try discriminate.
    + apply sum_numeric_from; assumption.
    + destruct (sum_numeric_from 0 s Hs) as (x & Hx & Hq).
      exists x. split; [assumption |]. rewrite Hq. ring.
Qed.

Lemma mapM_ok {A B} (f : A -> result B) (P : A -> B -> Prop) (l : list A) :
  (forall a, In a l -> exists b, f a = Ok b /\ P a b) ->
  exists bs, mapM f l = Ok bs /\ Forall2 P l bs.
Proof.
  induction l as [|a l IH]; intros H; simpl.
  - exists []. split; [reflexivity | constructor].
  - destruct (H a (or_introl eq_refl)) as (b & Hb & HP).
    destruct IH as (bs & Hbs & HF); [intros; apply H; now right |].
    exists (b :: bs). rewrite Hb. simpl. rewrite Hbs. simpl.
    split; [reflexivity | now constructor].
Qed.

Lemma group_rows_dropna (k : cell) (rows : list (cell * cell)) :
  notna k = true ->
  group_rows k (List.filter (fun kv => notna (fst kv)) rows) = group_rows k rows.
Proof.
  intros Hk. unfold group_rows. f_equal.
  induction rows as [|[r a] rows IH]; simpl; [reflexivity |].
  destruct (notna r) eqn:Hr; simpl.
  - destruct (cell_eqb k r); simpl; now rewrite IH.
  - rewrite IH. destruct (cell_eqb k r) eqn:E; [| reflexivity].
    apply cell_eqb_notna in E; [congruence | assumption].
Qed.

Lemma group_rows_numeric (k : cell) (keys vals : Series) :
  numeric vals -> numeric (group_rows k (List.filter (fun kv => notna (fst kv)) (combine keys vals))).
Proof.
  intros Hn c Hc. unfold group_rows in Hc.
  apply List.in_map_iff in Hc as ([r a] & <- & Hin).
  apply List.filter_In in Hin as [Hin _].
  apply List.filter_In in Hin as [Hin _].
  apply in_combine_r in Hin. now apply Hn.
Qed.

(** ** Grouping *)

Lemma Forall2_In_l {A B} (P : A -> B -> Prop) (l : list A) (l' : list B) (a : A) :
  Forall2 P l l' -> In a l -> exists b, In b l' /\ P a b.
Proof.
  induction 1 as [|x y l l' Hxy HF IH]; simpl; [tauto |].
  intros [-> | Hin]; [eauto |].
  destruct (IH Hin) as (b & Hb & HP). eauto.
Qed.

Lemma Forall2_In_r {A B} (P : A -> B -> Prop) (l : list A) (l' : list B) (b : B) :
  Forall2 P l l' -> In b l' -> exists a, In a l /\ P a b.
Proof.
  induction 1 as [|x y l l' Hxy HF IH]; simpl; [tauto |].
  intros [-> | Hin]; [eauto |].
  destruct (IH Hin) as (a & Ha & HP). eauto.
Qed.

Lemma Forall2_map_fst {A B} (P : A -> A * B -> Prop) (l : list A) (l' : list (A * B)) :
  (forall a g, P a g -> fst g = a) -> Forall2 P l l' -> List.map fst l' = l.
Proof.
  intros HP. induction 1 as [|x y l l' Hxy HF IH]; simpl; [reflexivity |].
  now rewrite IH, (HP _ _ Hxy).
Qed.

Lemma groupby_sum_spec (keys vals : Series) :
  numeric vals ->
  exists groups,
    groupby_sum keys vals = Ok groups /\
    distinct_regions groups /\
    (forall k x, In (k, x) groups ->
       notna k = true /\
       (exists a, In (k, a) (combine keys vals)) /\
       (x == region_total k keys vals)%Q) /\
    (forall r a, In (r, a) (combine keys vals) -> notna r = true ->
       exists k x, In (k, x) groups /\ cell_eqb k r = true).
Proof.
  intros Hn. unfold groupby_sum.
  set (rows := List.filter (fun kv => notna (fst kv)) (combine keys vals)).
  set (ks := isort cell_leb (uniques (List.map fst rows))).
  assert (Hks : forall k, In k ks ->
            notna k = true /\ exists a, In (k, a) (combine keys vals)).
  { intros k Hk. apply (Permutation_in _ (isort_perm _ _)) in Hk.
    apply In_uniques, List.in_map_iff in Hk as ([k' a] & <- & Hin).
    apply List.filter_In in Hin as [Hin Hna]. eauto. }
  destruct (mapM_ok
              (fun k => let! v := series_sum (group_rows k rows) in
                        let! x := format_amount v in Ok (k, x))
              (fun k g => fst g = k /\ (snd g == spec_total (group_rows k rows))%Q)
              ks) as (groups & Hg & HF).
  { intros k _.
    destruct (series_sum_numeric (group_rows k rows)) as (x & Hx & Hq);
      [now apply group_rows_numeric |].
    exists (k, x). rewrite Hx. simpl. auto. }
  exists groups. split; [exact Hg |]. split; [| split].
  - unfold distinct_regions.
    rewrite (Forall2_map_fst _ _ _ (fun a g H => proj1 H) HF).
    apply FOP_perm with (uniques (List.map fst rows)).
    + intros a b H. now rewrite cell_eqb_sym.
    + symmetry. apply isort_perm.
    + apply uniques_distinct.
  - intros k x Hin.
    destruct (Forall2_In_r _ _ _ _ HF Hin) as (k' & Hk' & Hfst & Hsnd).
    simpl in Hfst, Hsnd. subst k'.
    destruct (Hks k Hk') as [Hna Hrow]. repeat split; auto.
    rewrite Hsnd. unfold region_total, rows.
    now rewrite group_rows_dropna.
  - intros r a Hin Hna.
    assert (Hr : In r (List.map fst rows)).
    { apply List.in_map_iff. exists (r, a). split; [reflexivity |].
      apply List.filter_In. auto. }
    destruct (uniques_complete _ _ Hr) as (k & Hk & Hkr).
    apply (Permutation_in _ (Permutation_sym (isort_perm cell_leb _))) in Hk.
    destruct (Forall2_In_l _ _ _ _ HF Hk) as ([k' x] & Hg' & Hfst & _).
    simpl in Hfst. subst k'. eauto.
Qed.

Lemma extract_month_no_month_code fn df p :
  no_month_code fn ->
  extract_month fn df p =
  match p with
  | Meesho =>
      if has_column "month_number" df then
        try_except (meesho_month_number df) (Ok absent)
      else if has_column "order_date" df then
        from_date_column df (Some "order_date")
      else Ok absent
  | Amazon =>
      from_date_column df
        (first_existing ["Invoice Date"; "Order Date"; "Shipment Date"] df)
  | Flipkart =>
      if has_column "Amended Period" df then
        try_except (flipkart_amended_period df) (Ok absent)
      else Ok absent
  end.
Proof.
  intros H. unfold extract_month.
  apply (scan_months_none 1) in H. rewrite H. reflexivity.
Qed.

(** C3. Filename precedence: when the uppercased filename contains a
    month code, [extract_month] returns the code that comes first in
    calendar order among those it contains, with its 1-based index,
    whatever the ledger and the platform are. *)
Theorem filename_precedence (fn : string) (df : DataFrame) (p : Platform) :
  (exists m, In m months /\ substring_of m (upper fn)) ->
  exists (k : nat) (m : string),
    extract_month fn df p = Ok (Some (Z.of_nat k + 1), Some m) /\
    nth_error months k = Some m /\
    substring_of m (upper fn) /\
    forall k' m', (k' < k)%nat -> nth_error months k' = Some m' ->
                  ~ substring_of m' (upper fn).
Proof.
  intros H. destruct (scan_months_found 1 _ _ H) as (j & m & E).
  destruct (scan_months_some _ _ _ _ _ E) as (k & Hn & Hj & Hs & Hmin).
  exists k, m. unfold extract_month. rewrite E.
  repeat split; auto. do 3 f_equal. lia.
Qed.

(** ** Months and list indexing *)

Lemma py_getitem_range {A} (l : list A) (k : Z) (x : A) :
  py_getitem l k = Ok x ->
  - Z.of_nat (List.length l) <= k < Z.of_nat (List.length l).
Proof.
  unfold py_getitem.
  destruct (k <? 0) eqn:Hk;
    destruct (_ && _) eqn:Hb; try discriminate; intros _;
    apply andb_true_iff in Hb as [H1 H2]; lia.
Qed.

Lemma py_getitem_nth {A} (l : list A) (k : nat) (x : A) :
  nth_error l k = Some x -> py_getitem l (Z.of_nat k) = Ok x.
Proof.
  intros H. unfold py_getitem.
  assert (k < List.length l)%nat by (apply nth_error_Some; congruence).
  destruct (Z.of_nat k <? 0) eqn:Hk; [lia |].
  replace (_ && _) with true by (symmetry; apply andb_true_iff; lia).
  now rewrite Nat2Z.id, H.
Qed.

Lemma month_number_range (m : Month) : 1 <= month_number m <= 12.
Proof. destruct m; simpl; lia. Qed.

Lemma months_upper_abbr (m : Month) :
  nth_error months (Z.to_nat (month_number m - 1)) = Some (upper (month_abbr m)).
Proof. destruct m; reflexivity. Qed.

Lemma has_column_lookup (col : string) (df : DataFrame) (s : Series) :
  df !! col = Some s -> has_column col df = true.
Proof. unfold has_column. now intros ->. Qed.

Lemma month_number_mode_column (df : DataFrame) (v : cell) :
  month_number_mode df = Ok v -> has_column "month_number" df = true.
Proof.
  unfold month_number_mode, get_column, has_column.
  destruct (df !! "month_number"); [reflexivity | discriminate].
Qed.

(** ** Fallback steps *)

(** C4. Meesho fallback: with no month code in the filename and a
    [month_number] column whose non-missing values have a mode that
    [int] turns into 5, the result is [(5, "MAY")], whatever else the
    ledger holds (an [order_date] column included). *)
Theorem meesho_month_number_five (fn : string) (df : DataFrame) (v : cell) :
  no_month_code fn ->
  month_number_mode df = Ok v ->
  py_int v = Ok 5 ->
  extract_month fn df Meesho = Ok (Some 5, Some "MAY").
Proof.
  intros Hfn Hmode Hint. rewrite extract_month_no_month_code by assumption.
  rewrite (month_number_mode_column _ _ Hmode).
  unfold meesho_month_number. rewrite Hmode. simpl. rewrite Hint.
  reflexivity.
Qed.

(** C5. Flipkart fallback: with no month code in the filename, when
    the mode of the [Amended Period] strings parses under ["%b-%Y"] the
    result is the parsed month number with its upper-case code, which is
    the entry of [months] at that 1-based index; when the parse fails,
    the column is empty or the column is absent, the result is the
    absent pair, as Flipkart has no date column to fall back on. *)
Theorem flipkart_amended_period_fallback (fn : string) (df : DataFrame) :
  no_month_code fn ->
  (forall s dt,
      amended_period_mode df = Ok (CStr s) ->
      strptime_bY s = Ok dt ->
      let n := month_number (dt_month dt) in
      extract_month fn df Flipkart = Ok (Some n, Some (upper (month_abbr (dt_month dt))))
      /\ 1 <= n <= 12
      /\ nth_error months (Z.to_nat (n - 1)) = Some (upper (month_abbr (dt_month dt))))
  /\ (forall s e,
      amended_period_mode df = Ok (CStr s) ->
      strptime_bY s = Raise e ->
      extract_month fn df Flipkart = Ok absent)
  /\ (forall e,
      amended_period_mode df = Raise e ->
      extract_month fn df Flipkart = Ok absent)
  /\ (df !! "Amended Period" = None -> extract_month fn df Flipkart = Ok absent).
Proof.
  intros Hfn. rewrite extract_month_no_month_code by assumption.
  unfold flipkart_amended_period. cbv zeta. split; [| split; [| split]].
  - intros s dt Hm Hp. split; [| split].
    + destruct (has_column _ df) eqn:Hc.
      * rewrite Hm. simpl. rewrite Hp. reflexivity.
      * unfold amended_period_mode, get_column, has_column in *.
        destruct (df !! "Amended Period"); discriminate.
    + apply month_number_range.
    + apply months_upper_abbr.
  - intros s e Hm Hp. destruct (has_column _ df); [| reflexivity].
    rewrite Hm. simpl. now rewrite Hp.
  - intros e Hm. destruct (has_column _ df); [| reflexivity].
    now rewrite Hm.
  - intros Hn. unfold has_column. now rewrite Hn.
Qed.

(** C9 (amended). On a Meesho ledger whose filename holds no month
    code: if the [month_number] column exists and taking the mode of
    its non-missing values or converting it with [int] fails, the result
    is the absent pair at once, [order_date] is not looked at; and
    [order_date] is the date column exactly when [month_number] is
    absent. *)
Theorem meesho_coercion_failure_final (fn : string) (df : DataFrame) :
  no_month_code fn ->
  (forall e,
      has_column "month_number" df = true ->
      (let! v := month_number_mode df in py_int v) = Raise e ->
      extract_month fn df Meesho = Ok absent)
  /\ (has_column "month_number" df = false ->
      extract_month fn df Meesho =
      from_date_column df
        (if has_column "order_date" df then Some "order_date" else None)).
Proof.
  intros Hfn. rewrite extract_month_no_month_code by assumption. split.
  - intros e Hc Hfail. rewrite Hc. unfold meesho_month_number.
    destruct (month_number_mode df) as [v |]; simpl in *; [| reflexivity].
    now rewrite Hfail.
  - intros ->. now destruct (has_column "order_date" df).
Qed.

(** C8. [extract_month] always returns: no failure of a fallback step
    reaches the caller, and what is returned is the absent pair or a
    pair with both fields present. *)
Theorem extract_month_total (fn : string) (df : DataFrame) (p : Platform) :
  exists r : MonthResult,
    extract_month fn df p = Ok r /\
    (r = absent \/ exists n m, r = (Some n, Some m)).
Proof.
  assert (Hpair : forall (b : result MonthResult),
             (forall r, b = Ok r -> exists n m, r = (Some n, Some m)) ->
             exists r, try_except b (Ok absent) = Ok r /\
                       (r = absent \/ exists n m, r = (Some n, Some m))).
  { intros [r | e] Hb; simpl; eauto. }
  assert (Hdate : forall c, exists r,
             from_date_column df c = Ok r /\
             (r = absent \/ exists n m, r = (Some n, Some m))).
  { intros [col |]; simpl; [| eauto].
    apply Hpair. intros r. unfold date_column_month.
    destruct (get_column df col); simpl; [| discriminate].
    destruct (to_datetime a) as [dates |]; simpl; [| discriminate].
    destruct (iloc0 _); simpl; [| discriminate].
    destruct (np_index _ _); simpl; [| discriminate].
    destruct (py_getitem _ _); simpl; [| discriminate].
    intros [= <-]. eauto. }
  unfold extract_month.
  destruct (scan_months 1 months (upper fn)) as [[i m] |].
  { eexists. split; [reflexivity | right; eauto]. }
  destruct p.
  - apply Hdate.
  - destruct (has_column "Amended Period" df); [| apply Hdate].
    apply Hpair. intros r. unfold flipkart_amended_period.
    destruct (amended_period_mode _); simpl; [| discriminate].
    destruct (strptime_cell _); simpl; [| discriminate].
    intros [= <-]. eauto.
  - destruct (has_column "month_number" df).
    + apply Hpair. intros r. unfold meesho_month_number.
      destruct (month_number_mode _); simpl; [| discriminate].
      destruct (py_int _); simpl; [| discriminate].
      destruct (py_getitem _ _); simpl; [| discriminate].
      intros [= <-]. eauto.
    + destruct (has_column "order_date" df); apply Hdate.
Qed.

(** ** The pair that is returned *)

Lemma date_column_month_range (df : DataFrame) (col : string) (n : Z) (m : string) :
  date_column_month df col = Ok (Some n, Some m) ->
  1 <= n <= 12 /\ py_getitem months (n - 1) = Ok m.
Proof.
  unfold date_column_month.
  destruct (get_column df col) as [s |]; simpl; [| discriminate].
  destruct (to_datetime s) as [dates |]; simpl; [| discriminate].
  destruct (iloc0 _) as [v |] eqn:Ev; simpl; [| discriminate].
  destruct (np_index _ v) as [k |] eqn:Ek; simpl; [| discriminate].
  destruct (py_getitem months (k - 1)) as [m' |] eqn:Em; simpl; [| discriminate].
  intros [= <- <-]. split; [| exact Em].
  assert (Hv : In v (dt_month_series dates)).
  { apply In_mode. destruct (mode _); [discriminate |].
    injection Ev as ->. now left. }
  apply List.in_map_iff in Hv as (d & Hd & _).
  unfold np_index in Ek. destruct (has_nat dates); [discriminate |].
  destruct d as [d |]; subst v; [| discriminate].
  simpl in Ek. rewrite Z.quot_1_r in Ek. injection Ek as <-.
  apply month_number_range.
Qed.

Lemma meesho_month_number_range (df : DataFrame) (n : Z) (m : string) :
  meesho_month_number df = Ok (Some n, Some m) ->
  -11 <= n <= 12 /\ py_getitem months (n - 1) = Ok m.
Proof.
  unfold meesho_month_number.
  destruct (month_number_mode df) as [v |]; simpl; [| discriminate].
  destruct (py_int v) as [k |]; simpl; [| discriminate].
  destruct (py_getitem months (k - 1)) as [m' |] eqn:Em; simpl; [| discriminate].
  intros [= <- <-]. split; [| exact Em].
  apply py_getitem_range in Em. simpl in Em. lia.
Qed.

(** X1. Whatever [extract_month] returns with both fields present, the code
    is the entry of [months] that Python's indexing finds at [n - 1];
    the number lies in 1..12 on every path but the Meesho
    [month_number] one, where it may also be one of -11..0. *)
Lemma extract_month_pair (fn : string) (df : DataFrame) (p : Platform)
    (n : Z) (m : string) :
  extract_month fn df p = Ok (Some n, Some m) ->
  py_getitem months (n - 1) = Ok m /\
  (1 <= n <= 12 \/
   (p = Meesho /\ no_month_code fn /\
    has_column "month_number" df = true /\ -11 <= n <= 0)).
Proof.
  assert (Hdate : forall c,
             from_date_column df c = Ok (Some n, Some m) ->
             py_getitem months (n - 1) = Ok m /\ 1 <= n <= 12).
  { intros [col |]; simpl; [| discriminate].
    destruct (date_column_month df col) as [[[k |] [m' |]] |] eqn:E;
      simpl; try discriminate.
    intros [= <- <-]. apply date_column_month_range in E. tauto. }
  unfold extract_month.
  destruct (scan_months 1 months (upper fn)) as [[i m0] |] eqn:Es.
  - intros [= <- <-].
    apply scan_months_some in Es as (k & Hk & -> & _).
    assert (k < List.length months)%nat by (apply nth_error_Some; congruence).
    change (List.length months) with 12%nat in *.
    replace (1 + Z.of_nat k - 1) with (Z.of_nat k) by lia.
    split; [now apply py_getitem_nth | left; lia].
  - pose proof (proj1 (scan_months_none _ _ _) Es) as Hno. destruct p.
    + intros H. apply Hdate in H. tauto.
    + destruct (has_column "Amended Period" df); [| intros H; apply Hdate in H; tauto].
      unfold flipkart_amended_period.
      destruct (amended_period_mode df); simpl; [| discriminate].
      destruct (strptime_cell _) as [dt |]; simpl; [| discriminate].
      intros [= <- <-]. pose proof (month_number_range (dt_month dt)) as Hr.
      split; [| now left].
      rewrite <- (Z2Nat.id (month_number (dt_month dt) - 1)) by lia.
      apply py_getitem_nth, months_upper_abbr.
    + destruct (has_column "month_number" df) eqn:Hc.
      * destruct (meesho_month_number df) as [[[k |] [m' |]] |] eqn:E;
          simpl; try discriminate.
        intros [= <- <-]. apply meesho_month_number_range in E as [Hr Hm].
        split; [exact Hm |].
        destruct (Z_le_gt_dec 1 k); [left; lia | right; repeat split; auto; lia].
      * destruct (has_column "order_date" df);
          intros H; apply Hdate in H; tauto.
Qed.

(** C2 (defect shown). On the Meesho [month_number] path the number is
    not brought into 1..12: a mode of 0 passes [int] unchanged,
    [months[0 - 1]] is Python's last entry, and the result is [(0, "DEC")],
    neither the absent pair nor a number in 1..12 with the code at that
    index. *)
Theorem meesho_month_zero_wraps :
  extract_month "meesho_sales.csv" meesho_zero_ledger Meesho
  = Ok (Some 0, Some "DEC").
Proof. reflexivity. Qed.

(** ** More on the month resolver *)

Lemma py_getitem_nonneg {A} (l : list A) (k : Z) (x : A) :
  0 <= k -> nth_error l (Z.to_nat k) = Some x -> py_getitem l k = Ok x.
Proof.
  intros Hk H. rewrite <- (Z2Nat.id k) by assumption. now apply py_getitem_nth.
Qed.

Lemma py_getitem_negative {A} (l : list A) (k : Z) (x : A) :
  k < 0 -> 0 <= k + Z.of_nat (List.length l) ->
  nth_error l (Z.to_nat (k + Z.of_nat (List.length l))) = Some x ->
  py_getitem l k = Ok x.
Proof.
  intros Hk Hn H. unfold py_getitem.
  destruct (k <? 0) eqn:E; [| lia].
  replace (_ && _) with true by (symmetry; apply andb_true_iff; lia).
  now rewrite H.
Qed.

Lemma py_getitem_outside {A} (l : list A) (k : Z) :
  k < - Z.of_nat (List.length l) \/ Z.of_nat (List.length l) <= k ->
  py_getitem l k = Raise IndexError.
Proof.
  intros H. unfold py_getitem.
  destruct (k <? 0) eqn:E;
    (replace (_ && _) with false by (symmetry; apply andb_false_iff; lia));
    reflexivity.
Qed.

Lemma py_getitem_In {A} (l : list A) (k : Z) (x : A) :
  py_getitem l k = Ok x -> In x l.
Proof.
  unfold py_getitem. destruct (_ && _); [| discriminate].
  destruct (nth_error l _) as [y |] eqn:E; [| discriminate].
  intros [= <-]. eapply nth_error_In; eauto.
Qed.

Lemma months_nth (i : nat) :
  (i < 12)%nat -> exists m, nth_error months i = Some m.
Proof.
  intros H. destruct (nth_error months i) as [m |] eqn:E; [eauto |].
  apply nth_error_None in E. simpl in E. lia.
Qed.

Lemma month_code_not_empty (m : string) : In m months -> m <> "".
Proof. simpl. intros H. repeat (destruct H as [<- | H]; [discriminate |]). tauto. Qed.

Lemma extract_month_cases (fn : string) (df : DataFrame) (p : Platform) :
  exists r : MonthResult,
    extract_month fn df p = Ok r /\
    (r = absent \/ exists n m, r = (Some n, Some m) /\ In m months).
Proof.
  assert (Hpair : forall (b : result MonthResult),
             (forall r, b = Ok r -> exists n m, r = (Some n, Some m) /\ In m months) ->
             exists r, try_except b (Ok absent) = Ok r /\
                       (r = absent \/ exists n m, r = (Some n, Some m) /\ In m months)).
  { intros [r | e] Hb; simpl; eauto. }
  assert (Hdate : forall c, exists r,
             from_date_column df c = Ok r /\
             (r = absent \/ exists n m, r = (Some n, Some m) /\ In m months)).
  { intros [col |]; simpl; [| eauto].
    apply Hpair. intros [[n |] [m |]] E;
      try solve [exfalso; revert E; unfold date_column_month;
                 repeat (match goal with
                         | |- context [rbind ?r _] => destruct r; simpl
                         end; try discriminate)].
    apply date_column_month_range in E as [_ E].
    apply py_getitem_In in E. eauto. }
  unfold extract_month.
  destruct (scan_months 1 months (upper fn)) as [[i m] |] eqn:Es.
  { apply scan_months_some in Es as (k & Hk & _).
    apply nth_error_In in Hk. eexists. split; [reflexivity | right; eauto]. }
  destruct p.
  - apply Hdate.
  - destruct (has_column "Amended Period" df); [| apply Hdate].
    apply Hpair. intros r. unfold flipkart_amended_period.
    destruct (amended_period_mode _); simpl; [| discriminate].
    destruct (strptime_cell _) as [dt |]; simpl; [| discriminate].
    intros [= <-]. do 2 eexists. split; [reflexivity |].
    exact (nth_error_In _ _ (months_upper_abbr (dt_month dt))).
  - destruct (has_column "month_number" df).
    + apply Hpair. intros [[n |] [m |]] E;
        try solve [exfalso; revert E; unfold meesho_month_number;
                   repeat (match goal with
                           | |- context [rbind ?r _] => destruct r; simpl
                           end; try discriminate)].
      apply meesho_month_number_range in E as [_ E].
      apply py_getitem_In in E. eauto.
    + destruct (has_column "order_date" df); apply Hdate.
Qed.

(** X2. The month name that reaches the summary heading
    ([data['month'] or "Unknown"]) is ["Unknown"] when [extract_month]
    found no month, and one of the twelve codes otherwise. *)
Theorem month_label_known (fn : string) (df : DataFrame) (p : Platform) :
  exists r : MonthResult,
    extract_month fn df p = Ok r /\
    ((r = absent /\ month_or_unknown r = "Unknown") \/
     (exists n m, r = (Some n, Some m) /\ In m months /\ month_or_unknown r = m)).
Proof.
  destruct (extract_month_cases fn df p) as (r & Hr & [-> | (n & m & -> & Hm)]).
  - exists absent. split; [assumption |]. left. split; reflexivity.
  - exists (Some n, Some m). split; [assumption |]. right.
    exists n, m. repeat split; auto.
    unfold month_or_unknown. simpl.
    destruct (String.eqb_spec m ""); [| reflexivity].
    now apply month_code_not_empty in Hm.
Qed.

(** X3. The Meesho [month_number] path, by the integer [n] the mode
    converts to: for 1..12 the result is [n] with the code at that 1-based
    index; for -11..0 it is [n] with the code counted from the end of the
    table (Python's negative index); for every other [n] the lookup fails
    and the result is the absent pair. *)
Theorem meesho_month_number_regimes (fn : string) (df : DataFrame)
    (v : cell) (n : Z) :
  no_month_code fn ->
  month_number_mode df = Ok v ->
  py_int v = Ok n ->
  (1 <= n <= 12 ->
   exists m, nth_error months (Z.to_nat (n - 1)) = Some m /\
             extract_month fn df Meesho = Ok (Some n, Some m)) /\
  (-11 <= n <= 0 ->
   exists m, nth_error months (Z.to_nat (n + 11)) = Some m /\
             extract_month fn df Meesho = Ok (Some n, Some m)) /\
  (n < -11 \/ 12 < n -> extract_month fn df Meesho = Ok absent).
Proof.
  intros Hfn Hmode Hint. rewrite extract_month_no_month_code by assumption.
  rewrite (month_number_mode_column _ _ Hmode).
  unfold meesho_month_number. rewrite Hmode. simpl. rewrite Hint. simpl.
  split; [| split].
  - intros Hn. destruct (months_nth (Z.to_nat (n - 1))) as [m Hm]; [lia |].
    exists m. split; [assumption |].
    rewrite (py_getitem_nonneg months (n - 1) m); [reflexivity | lia | assumption].
  - intros Hn. destruct (months_nth (Z.to_nat (n + 11))) as [m Hm]; [lia |].
    exists m. split; [assumption |].
    rewrite (py_getitem_negative months (n - 1) m); [reflexivity | lia | simpl; lia |].
    simpl List.length. now replace (n - 1 + Z.of_nat 12) with (n + 11) by lia.
  - intros Hn. rewrite py_getitem_outside; [reflexivity | simpl; lia].
Qed.


(** X5. One unparsed date spoils the date column: when [to_datetime]
    leaves a NaT in the chosen column, [dates.dt.month] is a float series,
    no float indexes [months], and the result is the absent pair, whatever
    the other dates say (Amazon's date column, Meesho's [order_date]). *)
Theorem unparsed_date_gives_absent (fn : string) (df : DataFrame)
    (s : Series) (dates : list (option datetime)) :
  no_month_code fn ->
  to_datetime s = Ok dates ->
  has_nat dates = true ->
  (forall col,
      first_existing ["Invoice Date"; "Order Date"; "Shipment Date"] df = Some col ->
      df !! col = Some s ->
      extract_month fn df Amazon = Ok absent) /\
  (has_column "month_number" df = false ->
   df !! "order_date" = Some s ->
   extract_month fn df Meesho = Ok absent).
Proof.
  intros Hfn Hd Hnat.
  assert (H : forall col, df !! col = Some s ->
                          from_date_column df (Some col) = Ok absent).
  { intros col Hc. simpl. unfold date_column_month, get_column.
    rewrite Hc. simpl. rewrite Hd. simpl.
    destruct (iloc0 _); simpl; [| reflexivity].
    unfold np_index. now rewrite Hnat. }
  rewrite !extract_month_no_month_code by assumption. split.
  - intros col -> Hc. now apply H.
  - intros -> Hc. rewrite (has_column_lookup _ _ _ Hc). now apply H.
Qed.

(** X8. Total failure: with no month code in the filename and none of
    the platform's month columns in the ledger, the result is the absent
    pair. *)
Theorem no_month_columns_absent (fn : string) (df : DataFrame) (p : Platform) :
  no_month_code fn ->
  (forall c, In c (month_columns p) -> df !! c = None) ->
  extract_month fn df p = Ok absent.
Proof.
  intros Hfn Hc. rewrite extract_month_no_month_code by assumption.
  assert (Hno : forall c, In c (month_columns p) -> has_column c df = false).
  { intros c Hin. unfold has_column. now rewrite (Hc c Hin). }
  destruct p; simpl in *.
  - rewrite !Hno by tauto. reflexivity.
  - rewrite !Hno by tauto. reflexivity.
  - rewrite !Hno by tauto. reflexivity.
Qed.

(** ** The most frequent month of a date column *)

Lemma cell_eqb_compat (x y z : cell) :
  cell_eqb x y = true -> cell_eqb x z = cell_eqb y z.
Proof.
  intros H. destruct (cell_eqb y z) eqn:E.
  - now apply cell_eqb_trans with y.
  - destruct (cell_eqb x z) eqn:E'; [| reflexivity].
    rewrite cell_eqb_sym in H.
    now rewrite (cell_eqb_trans _ _ _ H E') in E.
Qed.

Lemma count_of_compat (x y : cell) (s : Series) :
  cell_eqb x y = true -> count_of x s = count_of y s.
Proof.
  intros H. unfold count_of. f_equal.
  induction s as [|z s IH]; simpl; [reflexivity |].
  now rewrite (cell_eqb_compat _ _ z H), IH.
Qed.

Lemma count_of_pos (x : cell) (s : Series) :
  (0 < count_of x s)%nat -> exists y, In y s /\ cell_eqb x y = true.
Proof.
  unfold count_of. induction s as [|z s IH]; simpl; [lia |].
  destruct (cell_eqb x z) eqn:E; [eauto |].
  intros H. destruct (IH H) as (y & Hy & He). eauto.
Qed.

Lemma count_of_In (x : cell) (s : Series) : In x s -> (0 < count_of x s)%nat.
Proof.
  unfold count_of. induction s as [|z s IH]; simpl; [tauto |].
  intros [-> | H].
  - rewrite cell_eqb_refl. simpl. lia.
  - destruct (cell_eqb x z); simpl; auto. apply IH in H. lia.
Qed.

Lemma fold_max_ge (f : cell -> nat) (l : Series) (x : cell) :
  In x l -> (f x <= fold_right (fun y m => Nat.max (f y) m) O l)%nat.
Proof.
  induction l as [|z l IH]; simpl; [tauto |].
  intros [-> | H]; [lia |]. apply IH in H. lia.
Qed.

Lemma fold_max_attained (f : cell -> nat) (l : Series) :
  l <> [] ->
  exists x, In x l /\ f x = fold_right (fun y m => Nat.max (f y) m) O l.
Proof.
  induction l as [|z l IH]; [congruence |]. intros _. simpl.
  destruct l as [|z' l].
  - exists z. split; [now left |]. simpl. lia.
  - destruct IH as (x & Hx & Hf); [discriminate |].
    destruct (Nat.max_spec (f z) (fold_right (fun y m => Nat.max (f y) m) O (z' :: l)))
      as [[_ ->] | [_ ->]].
    + exists x. split; [now right | assumption].
    + exists z. split; [now left | reflexivity].
Qed.

Lemma max_count_ge (x : cell) (s : Series) : (count_of x s <= max_count s)%nat.
Proof.
  destruct (Nat.eq_dec (count_of x s) 0%nat) as [-> | Hpos]; [lia |].
  destruct (count_of_pos x s) as (y & Hy & He); [lia |].
  rewrite (count_of_compat _ _ s He).
  exact (fold_max_ge (fun y => count_of y s) s y Hy).
Qed.

Lemma mode_perm (s : Series) : Permutation (mode s) (most_frequent (dropna s)).
Proof.
  unfold mode. fold (most_frequent (dropna s)).
  destruct (_ || _); [apply isort_perm | reflexivity].
Qed.

Lemma mode_count (v : cell) (s : Series) :
  In v (mode s) ->
  In v (dropna s) /\ count_of v (dropna s) = max_count (dropna s).
Proof.
  intros H. apply (Permutation_in _ (mode_perm s)) in H.
  apply List.filter_In in H as [H1 H2].
  split; [now apply In_uniques | now apply Nat.eqb_eq].
Qed.

Lemma mode_complete (w : cell) (s : Series) :
  In w (dropna s) -> count_of w (dropna s) = max_count (dropna s) ->
  exists y, In y (mode s) /\ cell_eqb y w = true.
Proof.
  intros Hw Hc. destruct (uniques_complete _ _ Hw) as (y & Hy & He).
  exists y. split; [| assumption].
  apply (Permutation_in _ (Permutation_sym (mode_perm s))).
  apply List.filter_In. split; [assumption |].
  apply Nat.eqb_eq. now rewrite (count_of_compat _ _ _ He).
Qed.

Lemma mode_nonempty (s : Series) : dropna s <> [] -> mode s <> [].
Proof.
  intros Hne.
  destruct (fold_max_attained (fun y => count_of y (dropna s)) _ Hne)
    as (x & Hx & Hf).
  destruct (mode_complete x s Hx Hf) as (y & Hy & _).
  intros E. rewrite E in Hy. exact Hy.
Qed.

Lemma insert_sorted_head_le {A} (leb : A -> A -> bool) (P : A -> Prop)
    (x : A) (l : list A) (h : A) :
  (forall a b, P a -> P b -> leb a b = false -> leb b a = true) ->
  (forall a b c, P a -> P b -> P c ->
                 leb a b = true -> leb b c = true -> leb a c = true) ->
  P x -> P h -> Forall P l ->
  (forall y, In y l -> leb h y = true) ->
  forall h', hd_error (insert_sorted leb x (h :: l)) = Some h' ->
             P h' /\ forall y, In y (x :: h :: l) -> leb h' y = true.
Proof.
  intros Htot Htrans Px Ph Pl Hh h'. simpl.
  assert (Hrefl : forall a, P a -> leb a a = true).
  { intros a Pa. pose proof (Htot a a Pa Pa) as H. destruct (leb a a); auto. }
  destruct (leb x h) eqn:E; simpl; intros [= <-].
  - split; [assumption |]. intros y [<- | [<- | Hy]]; auto.
    apply Htrans with h; auto. rewrite List.Forall_forall in Pl. auto.
  - split; [assumption |]. intros y [<- | [<- | Hy]]; auto.
Qed.

Lemma isort_head_le {A} (leb : A -> A -> bool) (P : A -> Prop) (l : list A) :
  (forall a b, P a -> P b -> leb a b = false -> leb b a = true) ->
  (forall a b c, P a -> P b -> P c ->
                 leb a b = true -> leb b c = true -> leb a c = true) ->
  Forall P l ->
  forall h, hd_error (isort leb l) = Some h ->
            P h /\ forall y, In y l -> leb h y = true.
Proof.
  intros Htot Htrans. induction l as [|x l IH]; intros Pl h; simpl.
  - discriminate.
  - inversion Pl as [| ? ? Px Pl']; subst.
    destruct (isort leb l) as [|h0 t] eqn:E.
    + simpl. intros [= <-].
      assert (l = []) as ->.
      { apply Permutation_nil. rewrite <- E. apply isort_perm. }
      split; [assumption |]. intros y [<- | []].
      pose proof (Htot x x Px Px) as H. destruct (leb x x); auto.
    + destruct (IH Pl' h0 eq_refl) as [Ph0 Hle].
      assert (Pt : Forall P t).
      { apply List.Forall_forall. intros y Hy.
        rewrite List.Forall_forall in Pl'. apply Pl'.
        apply (Permutation_in _ (isort_perm leb l)). rewrite E. now right. }
      assert (Hle' : forall y, In y t -> leb h0 y = true).
      { intros y Hy. apply Hle.
        apply (Permutation_in _ (isort_perm leb l)). rewrite E. now right. }
      intros Hh.
      destruct (insert_sorted_head_le leb P x t h0 Htot Htrans Px Ph0 Pt Hle'
                  h Hh) as [Ph Hall].
      split; [assumption |]. intros y [<- | Hy].
      * apply Hall. now left.
      * apply (Permutation_in _ (Permutation_sym (isort_perm leb l))) in Hy.
        rewrite E in Hy. apply Hall. now right.
Qed.

Lemma mode_head_least (s : Series) (v : cell) :
  forallb is_num (dropna s) = true ->
  iloc0 (mode s) = Ok v ->
  forall y, In y (mode s) -> cell_leb v y = true.
Proof.
  intros Hnum Hv.
  assert (Hm : forallb is_num (most_frequent (dropna s)) = true).
  { apply forallb_forall. intros x Hx. rewrite forallb_forall in Hnum.
    apply Hnum. apply List.filter_In in Hx as [Hx _]. now apply In_uniques. }
  unfold mode in *. fold (most_frequent (dropna s)) in *. rewrite Hm in *.
  simpl in *.
  assert (Hhd : hd_error (isort cell_leb (most_frequent (dropna s))) = Some v).
  { destruct (isort _ _); [discriminate | now injection Hv as ->]. }
  destruct (isort_head_le cell_leb (fun c => is_num c = true)
              (most_frequent (dropna s))) with (h := v) as [_ Hle]; auto.
  - intros [a | |] [b | |]; simpl; try discriminate. intros _ _ H.
    apply Qle_bool_iff.
    destruct (Qlt_le_dec b a) as [Hlt | Hle]; [now apply Qlt_le_weak |].
    exfalso. apply Qle_bool_iff in Hle. congruence.
  - intros [a | |] [b | |] [c | |]; simpl; try discriminate.
    intros _ _ _ H1 H2. apply Qle_bool_iff in H1, H2. apply Qle_bool_iff.
    now apply Qle_trans with b.
  - apply List.Forall_forall. now apply forallb_forall.
  - intros y Hy. apply Hle.
    now apply (Permutation_in _ (isort_perm cell_leb _)).
Qed.

Lemma Qeq_bool_inject_Z (a b : Z) :
  Qeq_bool (inject_Z a) (inject_Z b) = (a =? b).
Proof. unfold Qeq_bool, inject_Z. simpl. now rewrite !Z.mul_1_r. Qed.

Lemma no_nat_dropna (dates : list (option datetime)) :
  has_nat dates = false ->
  dropna (dt_month_series dates) = dt_month_series dates /\
  forallb is_num (dt_month_series dates) = true.
Proof.
  induction dates as [|[d |] dates IH]; simpl; [auto | | discriminate].
  intros H. destruct (IH H) as [H1 H2]. unfold dropna in *. simpl.
  now rewrite H1, H2.
Qed.

Lemma count_of_month (k : Z) (dates : list (option datetime)) :
  has_nat dates = false ->
  count_of (CNum (inject_Z k)) (dt_month_series dates) = month_count k dates.
Proof.
  unfold count_of, month_count.
  induction dates as [|[d |] dates IH]; simpl; [reflexivity | | discriminate].
  intros H. rewrite Qeq_bool_inject_Z, Z.eqb_sym.
  destruct (_ =? k); simpl; now rewrite IH.
Qed.

Lemma In_dt_month_series (v : cell) (dates : list (option datetime)) :
  has_nat dates = false -> In v (dt_month_series dates) ->
  exists d, In (Some d) dates /\ v = CNum (inject_Z (month_number (dt_month d))).
Proof.
  induction dates as [|[d |] dates IH]; simpl; [tauto | | discriminate].
  intros H [<- | Hin]; [eauto |].
  destruct (IH H Hin) as (d' & Hd & ->). eauto.
Qed.

(** X6. When every date of the chosen column parses, the date step
    returns a month that no other month of the column outnumbers, the
    smallest such month when several tie, together with its code. *)
Theorem date_column_most_frequent_month (df : DataFrame) (col : string)
    (s : Series) (dates : list (option datetime)) :
  df !! col = Some s ->
  to_datetime s = Ok dates ->
  dates <> [] ->
  has_nat dates = false ->
  exists n m,
    from_date_column df (Some col) = Ok (Some n, Some m) /\
    1 <= n <= 12 /\
    nth_error months (Z.to_nat (n - 1)) = Some m /\
    (0 < month_count n dates)%nat /\
    forall k,
      (month_count k dates <= month_count n dates)%nat /\
      (month_count k dates = month_count n dates -> n <= k).
Proof.
  intros Hc Hd Hne Hnat.
  destruct (no_nat_dropna dates Hnat) as [Hdrop Hnum].
  set (ser := dt_month_series dates) in *.
  assert (Hser : dropna ser <> []).
  { rewrite Hdrop. unfold ser. destruct dates; [congruence | discriminate]. }
  destruct (mode ser) as [|v t] eqn:Em; [now apply mode_nonempty in Hser |].
  assert (Hv : In v (mode ser)) by (rewrite Em; now left).
  destruct (mode_count v ser Hv) as [Hin Hcount]. rewrite Hdrop in Hin, Hcount.
  destruct (In_dt_month_series v dates Hnat Hin) as (d & Hd' & ->).
  set (n := month_number (dt_month d)) in *.
  pose proof (month_number_range (dt_month d)) as Hr. fold n in Hr.
  destruct (months_nth (Z.to_nat (n - 1))) as [m Hm]; [lia |].
  exists n, m. split; [| split; [assumption | split; [assumption |]]].
  - simpl. unfold date_column_month, get_column. rewrite Hc. simpl.
    rewrite Hd. simpl. fold ser. rewrite Em. simpl.
    unfold np_index. rewrite Hnat. simpl. rewrite Z.quot_1_r. fold n.
    rewrite (py_getitem_nonneg months (n - 1) m); [reflexivity | lia | assumption].
  - rewrite <- (count_of_month n dates Hnat). fold ser.
    split; [now apply count_of_In |].
    intros k. rewrite <- (count_of_month k dates Hnat). fold ser.
    split; [rewrite Hcount; apply max_count_ge |].
    intros Hk.
    assert (Hpos : (0 < count_of (CNum (inject_Z k)) ser)%nat).
    { rewrite Hk. now apply count_of_In. }
    destruct (count_of_pos _ _ Hpos) as (w & Hw & He).
    destruct (mode_complete w ser) as (y & Hy & Hyw).
    { now rewrite Hdrop. }
    { rewrite Hdrop, <- (count_of_compat _ _ _ He), Hk. exact Hcount. }
    assert (Hle : cell_leb (CNum (inject_Z n)) y = true).
    { apply (mode_head_least ser); [now rewrite Hdrop | now rewrite Em | assumption]. }
    assert (Hky : cell_eqb (CNum (inject_Z k)) y = true).
    { rewrite cell_eqb_sym in Hyw. now apply cell_eqb_trans with w. }
    destruct y as [q | |]; simpl in Hky, Hle; try discriminate.
    apply Qeq_bool_iff in Hky. apply Qle_bool_iff in Hle.
    rewrite <- Hky in Hle. unfold Qle, inject_Z in Hle. simpl in Hle. lia.
Qed.

(** ** The filename, whatever its case *)






(** ** The summary of one platform *)


Ltac case_bind :=
  match goal with
  | |- context [rbind (get_column ?d ?c) _] => destruct (get_column d c); simpl
  | |- context [rbind (series_sum ?s) _] => destruct (series_sum s); simpl
  | |- context [rbind (format_amount ?v) _] => destruct (format_amount v); simpl
  | |- context [rbind (groupby_sum ?k ?v) _] => destruct (groupby_sum k v); simpl
  | |- context [if has_column ?c ?d then _ else _] => destruct (has_column c d); simpl
  end.

Lemma step_missing p df m st :
  both_columns p df = false ->
  exists s st',
    summarize_step p df m st = Ok (s, st') /\ present s = false /\
    total_sales s = None /\ total_tax s = None /\ region_breakdown s = [].
Proof.
  unfold summarize_step. intros ->. cbv zeta.
  eexists. eexists. split; [reflexivity |]. simpl. auto.
Qed.

Lemma step_present p df m st s st' :
  both_columns p df = true ->
  summarize_step p df m st = Ok (s, st') ->
  present s = true /\
  exists x y, total_sales s = Some x /\ total_tax s = Some y.
Proof.
  unfold summarize_step. intros ->. cbv zeta.
  repeat (case_bind; try discriminate).
  all: intros [= <- _]; simpl; eauto 10.
Qed.

Lemma step_numeric p df m st sales tax :
  df !! sales_column (column_mapping p) = Some sales ->
  df !! tax_column (column_mapping p) = Some tax ->
  numeric sales -> numeric tax ->
  exists s st' x y,
    summarize_step p df m st = Ok (s, st') /\ present s = true /\
    total_sales s = Some x /\ total_tax s = Some y /\
    (x == spec_total sales)%Q /\ (y == spec_total tax)%Q /\
    (df !! region_column (column_mapping p) = None -> region_breakdown s = []) /\
    (forall regions,
        df !! region_column (column_mapping p) = Some regions ->
        exists groups,
          groupby_sum regions sales = Ok groups /\
          region_breakdown s = firstn 10 (sort_values_desc groups)).
Proof.
  intros Hs Ht Hns Hnt. unfold summarize_step, both_columns, has_column, get_column.
  rewrite Hs, Ht. cbv zeta. simpl.
  destruct (series_sum_numeric sales Hns) as (x & -> & Hx).
  destruct (series_sum_numeric tax Hnt) as (y & -> & Hy). simpl.
  destruct (df !! region_column (column_mapping p)) as [regions |] eqn:Hr.
  - destruct (groupby_sum_spec regions sales Hns) as (groups & Hg & _).
    do 2 eexists. exists x, y.
    split; [simpl; rewrite Hg; simpl; reflexivity |]. simpl.
    repeat split; auto; [discriminate |].
    intros regions' [= <-]. eauto.
  - do 2 eexists. exists x, y. split; [reflexivity |]. simpl.
    repeat split; auto. discriminate.
Qed.

Lemma summary_of_step p df m s st' :
  summarize_step p df m empty_page = Ok (s, st') -> summarize p df m = Ok s.
Proof. unfold summarize. now intros ->. Qed.

Lemma step_of_summary p df m s :
  summarize p df m = Ok s -> exists st', summarize_step p df m empty_page = Ok (s, st').
Proof.
  unfold summarize.
  destruct (summarize_step p df m empty_page) as [[s' st'] |]; simpl; [| discriminate].
  intros [= <-]. eauto.
Qed.

(** C1 (amended). [summarize] returns a summary with [present = false]
    exactly when at least one of the platform's sales and tax columns is
    absent from the ledger; a summary with [present = true] carries both
    totals, and it is returned whenever both columns are present and
    hold only numbers and missing cells. *)
Theorem summarize_present_iff_both (p : Platform) (df : DataFrame) (m : MonthResult) :
  let cm := column_mapping p in
  ((exists s, summarize p df m = Ok s /\ present s = false) <->
   (has_column (sales_column cm) df = false \/
    has_column (tax_column cm) df = false))
  /\ (forall s, summarize p df m = Ok s -> present s = true ->
      exists x y, total_sales s = Some x /\ total_tax s = Some y)
  /\ (forall sales tax,
      df !! sales_column cm = Some sales -> df !! tax_column cm = Some tax ->
      numeric sales -> numeric tax ->
      exists s, summarize p df m = Ok s /\ present s = true).
Proof.
  cbv zeta. split; [split |split].
  - intros (s & Hs & Hp). apply step_of_summary in Hs as (st' & Hs).
    destruct (both_columns p df) eqn:Hb.
    + apply (step_present _ _ _ _ _ _ Hb) in Hs as [Hp' _]. congruence.
    + unfold both_columns in Hb. now apply andb_false_iff in Hb.
  - intros H. apply andb_false_iff in H.
    destruct (step_missing p df m empty_page H) as (s & st' & Hs & Hp & _).
    exists s. split; [| assumption]. now apply summary_of_step with st'.
  - intros s Hs Hp. apply step_of_summary in Hs as (st' & Hs).
    destruct (both_columns p df) eqn:Hb.
    + now apply (step_present _ _ _ _ _ _ Hb) in Hs as [_ H].
    + destruct (step_missing p df m empty_page Hb) as (s' & st'' & Hs' & Hp' & _).
      congruence.
  - intros sales tax Hs Ht Hns Hnt.
    destruct (step_numeric p df m empty_page sales tax Hs Ht Hns Hnt)
      as (s & st' & x & y & Hstep & Hp & _).
    exists s. split; [| assumption]. now apply summary_of_step with st'.
Qed.


(** The order in which [sort_values] leaves the groups: a rearrangement
    of them with the sums descending. *)
Hypothesis sort_values_perm :
  forall l, Permutation (sort_values_desc l) l.
Hypothesis sort_values_sorted :
  forall l, StronglySorted sales_desc (sort_values_desc l).


Lemma step_summary_fresh p df m st :
  (let! r := summarize_step p df m st in Ok (fst r)) = summarize p df m.
Proof.
  unfold summarize, summarize_step. cbv zeta.
  destruct (both_columns p df); [| reflexivity].
  repeat (case_bind; try reflexivity).
Qed.

(** C10. Idempotence: two iterations in a row over the same ledger,
    starting from any state of the page, produce the same summary
    twice, the one [summarize] gives (and fail together when it
    fails). *)
Theorem summarize_idempotent (p : Platform) (df : DataFrame) (m : MonthResult)
    (st : PageState) :
  summarize_twice p df m st =
  (let! s := summarize p df m in Ok (s, s)).
Proof.
  unfold summarize_twice.
  pose proof (step_summary_fresh p df m st) as H0.
  destruct (summarize_step p df m st) as [[s1 st1] | e] eqn:E; simpl in *.
  - pose proof (step_summary_fresh p df m st1) as H1.
    rewrite <- H0 in H1 |- *. simpl.
    destruct (summarize_step p df m st1) as [[s2 st2] | e2]; simpl in *; congruence.
  - now rewrite <- H0.
Qed.

(** ** The ten largest regions *)

Lemma sorted_firstn_skipn {A} (R : A -> A -> Prop) (n : nat) (l : list A) :
  StronglySorted R l ->
  forall a b, In a (firstn n l) -> In b (skipn n l) -> R a b.
Proof.
  intros H. revert n. induction H as [|x l Hl IH Hx]; intros [|n] a b; simpl;
    try tauto.
  intros [<- | Ha] Hb.
  - rewrite List.Forall_forall in Hx. apply Hx.
    rewrite <- (firstn_skipn n l). apply in_or_app. now right.
  - now apply (IH n).
Qed.

(** X9. The breakdown keeps the largest: it has ten entries, or all of
    them when there are fewer regions, and no region that is left out has
    a larger sum than one that is kept. *)
Theorem region_breakdown_keeps_largest (p : Platform) (df : DataFrame)
    (m : MonthResult) (sales tax regions : Series) :
  df !! sales_column (column_mapping p) = Some sales ->
  df !! tax_column (column_mapping p) = Some tax ->
  df !! region_column (column_mapping p) = Some regions ->
  numeric sales -> numeric tax ->
  exists s groups ranked,
    summarize p df m = Ok s /\
    groupby_sum regions sales = Ok groups /\
    Permutation ranked groups /\
    region_breakdown s = firstn 10 ranked /\
    List.length (region_breakdown s) = Nat.min 10 (List.length groups) /\
    forall a b, In a (region_breakdown s) -> In b (skipn 10 ranked) ->
                (snd b <= snd a)%Q.
Proof.
  intros Hs Ht Hr Hns Hnt.
  destruct (step_numeric p df m empty_page sales tax Hs Ht Hns Hnt)
    as (s & st' & x & y & Hstep & _ & _ & _ & _ & _ & _ & Hsome).
  destruct (Hsome regions Hr) as (groups & Hg & Hb).
  exists s, groups, (sort_values_desc groups).
  split; [now apply summary_of_step with st' |].
  split; [assumption |]. split; [apply sort_values_perm |].
  split; [assumption |]. split.
  - rewrite Hb, length_firstn.
    now rewrite (Permutation_length (sort_values_perm groups)).
  - intros a b Ha Hin. rewrite Hb in Ha.
    exact (sorted_firstn_skipn sales_desc 10 _ (sort_values_sorted groups) a b Ha Hin).
Qed.

(** ** The region sums add up *)

Lemma spec_total_app (s t : Series) :
  (spec_total (s ++ t) == spec_total s + spec_total t)%Q.
Proof.
  induction s as [|c s IH]; simpl; [ring |]. rewrite IH. ring.
Qed.









(** ** The loop over the platforms *)

Lemma step_effects (p : Platform) (df : DataFrame) (m : MonthResult)
    (st st' : PageState) (s : PlatformSummary) :
  summarize_step p df m st = Ok (s, st') ->
  (both_columns p df = true /\
   (exists sales x, df !! sales_column (column_mapping p) = Some sales /\
                    series_sum sales = Ok (CNum x) /\
                    sales_summary st' = sales_summary st ++ [(p, CNum x)]) /\
   (exists tax y, df !! tax_column (column_mapping p) = Some tax /\
                  series_sum tax = Ok (CNum y) /\
                  tax_summary st' = tax_summary st ++ [(p, CNum y)]) /\
   exists ws, page st' = page st ++ Heading p (month_or_unknown m) :: ws /\
              (forall q a b, ~ In (Warning q a b) ws) /\
              (forall q l, ~ In (Heading q l) ws)) \/
  (both_columns p df = false /\
   sales_summary st' = sales_summary st /\
   tax_summary st' = tax_summary st /\
   page st' = page st ++ [Warning p (sales_column (column_mapping p))
                                    (tax_column (column_mapping p))]).
Proof.
  unfold summarize_step. cbv zeta.
  destruct (both_columns p df) eqn:Hb.
  - unfold get_column.
    destruct (df !! sales_column (column_mapping p)) as [sales |]; simpl;
      [| discriminate].
    destruct (series_sum sales) as [[x | |] |] eqn:Ex; simpl; try discriminate.
    + destruct (df !! tax_column (column_mapping p)) as [tax |]; simpl;
        [| discriminate].
      destruct (series_sum tax) as [[y | |] |] eqn:Ey; simpl; try discriminate.
      destruct (has_column _ df).
      * destruct (df !! region_column (column_mapping p)); simpl; [| discriminate].
        destruct (groupby_sum _ _); simpl; [| discriminate].
        intros [= <- <-]. left. split; [reflexivity |]. simpl.
        split; [do 2 eexists; eauto |]. split; [do 2 eexists; eauto |].
        eexists. split.
        { rewrite <- List.app_assoc. simpl. reflexivity. }
        split; intros q; intros; simpl; intros Hin;
          repeat (destruct Hin as [Hin | Hin]; [discriminate |]); exact Hin.
      * intros [= <- <-]. left. split; [reflexivity |]. simpl.
        split; [do 2 eexists; eauto |]. split; [do 2 eexists; eauto |].
        eexists. split; [reflexivity |].
        split; intros q; intros; simpl; intros Hin;
          repeat (destruct Hin as [Hin | Hin]; [discriminate |]); exact Hin.
    + destruct (df !! tax_column (column_mapping p)) as [tax |]; simpl;
        [| discriminate].
      destruct (series_sum tax); discriminate.
    + destruct (df !! tax_column (column_mapping p)) as [tax |]; simpl;
        [| discriminate].
      destruct (series_sum tax); discriminate.
  - intros [= <- <-]. right. simpl. auto.
Qed.

Lemma summary_loop_lists (data : list (Platform * DataFrame * MonthResult))
    (st st' : PageState) :
  summary_loop data st = Ok st' ->
  exists ss ts,
    sales_summary st' = sales_summary st ++ ss /\
    tax_summary st' = tax_summary st ++ ts /\
    Forall2 (column_total (fun p => sales_column (column_mapping p)))
            (present_entries data) ss /\
    Forall2 (column_total (fun p => tax_column (column_mapping p)))
            (present_entries data) ts.
Proof.
  revert st. induction data as [|[[p df] m] data IH]; intros st; simpl.
  - intros [= <-]. exists [], []. rewrite !List.app_nil_r.
    repeat split; constructor.
  - destruct (summarize_step p df m st) as [[s st1] |] eqn:E; simpl;
      [| discriminate].
    intros Hl. destruct (IH _ Hl) as (ss & ts & Hs & Ht & Fs & Ft).
    unfold present_entries in *. simpl.
    destruct (step_effects _ _ _ _ _ _ E)
      as [(Hb & (sales & x & Hsl & Hsx & Hs1) & (tax & y & Htl & Hty & Ht1) & _)
         | (Hb & Hs1 & Ht1 & _)]; rewrite Hb.
    + exists ((p, CNum x) :: ss), ((p, CNum y) :: ts).
      rewrite Hs, Ht, Hs1, Ht1, <- !List.app_assoc. simpl.
      repeat split; auto; constructor; auto; unfold column_total; simpl;
        split; eauto.
    + exists ss, ts. rewrite Hs, Ht, Hs1, Ht1. auto.
Qed.

Lemma column_total_platforms (col : Platform -> string)
    (es : list (Platform * DataFrame * MonthResult)) (l : list (Platform * cell)) :
  Forall2 (column_total col) es l ->
  List.map fst l = List.map (fun e => fst (fst e)) es.
Proof.
  induction 1 as [|e pv es l [H _] HF IH]; simpl; [reflexivity |].
  now rewrite H, IH.
Qed.

Lemma combine_fst_snd {A B} (l : list (A * B)) :
  combine (List.map fst l) (List.map snd l) = l.
Proof.
  induction l as [|[a b] l IH]; simpl; [reflexivity | now rewrite IH].
Qed.

(** X11. After a run of the loop that ends normally, [sales_summary]
    and [tax_summary] list the same platforms in the same order, those of
    the uploads that have both required columns; each entry holds the sum
    of that platform's sales (or tax) column, a number.  A platform whose
    columns are missing is in neither list. *)
Theorem summary_lists_aligned (data : list (Platform * DataFrame * MonthResult))
    (st : PageState) :
  summary_loop data empty_page = Ok st ->
  List.map fst (sales_summary st) = present_platforms data /\
  List.map fst (tax_summary st) = present_platforms data /\
  Forall2 (column_total (fun p => sales_column (column_mapping p)))
          (present_entries data) (sales_summary st) /\
  Forall2 (column_total (fun p => tax_column (column_mapping p)))
          (present_entries data) (tax_summary st).
Proof.
  intros H. destruct (summary_loop_lists _ _ _ H) as (ss & ts & Hs & Ht & Fs & Ft).
  simpl in Hs, Ht. subst ss ts. unfold present_platforms.
  rewrite (column_total_platforms _ _ _ Fs), (column_total_platforms _ _ _ Ft).
  auto.
Qed.

(** X12. The overall chart is drawn exactly when some upload has both
    required columns; its tick labels are the platforms of those uploads
    in order, and the sales bar and the tax bar at each tick are the
    column sums of the platform named at that tick. *)
Theorem overall_chart_bars (data : list (Platform * DataFrame * MonthResult))
    (st : PageState) (chart : option Chart) :
  summary_page data = Ok (st, chart) ->
  (chart = None <-> present_platforms data = []) /\
  forall ch, chart = Some ch ->
    xticklabels ch = present_platforms data /\
    Forall2 (column_total (fun p => sales_column (column_mapping p)))
            (present_entries data) (combine (xticklabels ch) (sales_bars ch)) /\
    Forall2 (column_total (fun p => tax_column (column_mapping p)))
            (present_entries data) (combine (xticklabels ch) (tax_bars ch)).
Proof.
  unfold summary_page.
  destruct (summary_loop data empty_page) as [st0 |] eqn:E; simpl; [| discriminate].
  intros [= -> <-].
  destruct (summary_loop_lists _ _ _ E) as (ss & ts & Hs & Ht & Fs & Ft).
  simpl in Hs, Ht. subst ss ts.
  pose proof (column_total_platforms _ _ _ Fs) as Ps.
  pose proof (column_total_platforms _ _ _ Ft) as Pt.
  fold (present_platforms data) in Ps, Pt.
  unfold overall_chart. split.
  - destruct (sales_summary st) as [|a ss], (tax_summary st) as [|b ts];
      simpl in *; split; congruence.
  - intros ch Hch.
    assert (ch = {| xticklabels := List.map fst (sales_summary st);
                    sales_bars := List.map snd (sales_summary st);
                    tax_bars := List.map snd (tax_summary st) |}) as ->.
    { destruct (sales_summary st), (tax_summary st); try discriminate;
        congruence. }
    cbn [xticklabels sales_bars tax_bars].
    split; [assumption |]. split.
    + now rewrite combine_fst_snd.
    + rewrite Ps, <- Pt. now rewrite combine_fst_snd.
Qed.

Lemma step_result_summary (p : Platform) (df : DataFrame) (m : MonthResult)
    (st : PageState) :
  (exists r, summarize_step p df m st = Ok r) <->
  (exists s, summarize p df m = Ok s).
Proof.
  rewrite <- (step_summary_fresh p df m st).
  destruct (summarize_step p df m st) as [r | e]; simpl; split;
    intros [x Hx]; eauto; discriminate.
Qed.

(** X13. The loop ends normally exactly when the summary of every
    upload can be computed: an exception in the summary of one platform
    is the end of the whole run, whichever platform it is. *)
Theorem summary_loop_succeeds_iff (data : list (Platform * DataFrame * MonthResult))
    (st : PageState) :
  (exists st', summary_loop data st = Ok st') <->
  (forall p df m, In (p, df, m) data -> exists s, summarize p df m = Ok s).
Proof.
  revert st. induction data as [|[[p df] m] data IH]; intros st; simpl.
  - split; [intros _ ? ? ? [] | eauto].
  - split.
    + intros [st' H] q df' m' Hin.
      destruct (summarize_step p df m st) as [r |] eqn:E; simpl in H;
        [| discriminate].
      destruct Hin as [[= <- <- <-] | Hin].
      * apply (step_result_summary p df m st). eauto.
      * apply (proj1 (IH (snd r))); eauto.
    + intros Hall.
      destruct (proj2 (step_result_summary p df m st)) as [r Hr].
      { apply Hall. now left. }
      rewrite Hr. simpl. apply IH. intros q df' m' Hin. apply Hall. now right.
Qed.

Lemma summary_loop_page (data : list (Platform * DataFrame * MonthResult))
    (st st' : PageState) :
  summary_loop data st = Ok st' ->
  exists ws,
    page st' = page st ++ ws /\
    (forall p a b,
        In (Warning p a b) ws <->
        exists df m, In (p, df, m) data /\ both_columns p df = false /\
                     a = sales_column (column_mapping p) /\
                     b = tax_column (column_mapping p)) /\
    (forall p l,
        In (Heading p l) ws <->
        exists df m, In (p, df, m) data /\ both_columns p df = true /\
                     l = month_or_unknown m).
Proof.
  revert st. induction data as [|[[p df] m] data IH]; intros st; simpl.
  - intros [= <-]. exists []. rewrite List.app_nil_r. split; [reflexivity |].
    split; intros; split; simpl; try tauto; intros (? & ? & [] & _).
  - destruct (summarize_step p df m st) as [[s st1] |] eqn:E; simpl;
      [| discriminate].
    intros Hl. destruct (IH _ Hl) as (ws & Hp & Hw & Hh).
    destruct (step_effects _ _ _ _ _ _ E)
      as [(Hb & _ & _ & (ws1 & Hp1 & Hnw & Hnh)) | (Hb & _ & _ & Hp1)].
    + exists ((Heading p (month_or_unknown m) :: ws1) ++ ws).
      split; [rewrite Hp, Hp1, <- List.app_assoc; reflexivity |]. split.
      * intros q a b. rewrite in_app_iff, Hw. split.
        -- intros [[Hd | Hin] | (df' & m' & Hin & Hrest)].
           ++ discriminate.
           ++ now apply Hnw in Hin.
           ++ exists df', m'. split; [now right | assumption].
        -- intros (df' & m' & [[= <- <- <-] | Hin] & Hb' & Hrest).
           ++ congruence.
           ++ right. eauto 10.
      * intros q l. rewrite in_app_iff, Hh. split.
        -- intros [[[= <- <-] | Hin] | (df' & m' & Hin & Hrest)].
           ++ exists df, m. split; [now left | auto].
           ++ now apply Hnh in Hin.
           ++ exists df', m'. split; [now right | assumption].
        -- intros (df' & m' & [[= <- <- <-] | Hin] & Hb' & ->).
           ++ left. now left.
           ++ right. eauto 10.
    + exists (Warning p (sales_column (column_mapping p))
                        (tax_column (column_mapping p)) :: ws).
      split; [rewrite Hp, Hp1, <- List.app_assoc; reflexivity |]. split.
      * intros q a b. simpl. rewrite Hw. split.
        -- intros [[= <- <- <-] | (df' & m' & Hin & Hrest)].
           ++ exists df, m. split; [now left | auto].
           ++ exists df', m'. split; [now right | assumption].
        -- intros (df' & m' & [[= <- <- <-] | Hin] & Hb' & -> & ->).
           ++ now left.
           ++ right. eauto 10.
      * intros q l. simpl. rewrite Hh. split.
        -- intros [Hd | (df' & m' & Hin & Hrest)]; [discriminate |].
           exists df', m'. split; [now right | assumption].
        -- intros (df' & m' & [[= <- <- <-] | Hin] & Hb' & ->).
           ++ congruence.
           ++ right. eauto 10.
Qed.

(** X14. What the page says of each upload after a run that ends
    normally: a warning naming the platform's sales and tax columns is
    shown for the uploads that lack one of them and for no other, and a
    heading with the platform and its month name (["Unknown"] without one)
    for the uploads that have both and for no other. *)
Theorem page_headings_and_warnings
    (data : list (Platform * DataFrame * MonthResult)) (st : PageState) :
  summary_loop data empty_page = Ok st ->
  (forall p a b,
      In (Warning p a b) (page st) <->
      exists df m, In (p, df, m) data /\ both_columns p df = false /\
                   a = sales_column (column_mapping p) /\
                   b = tax_column (column_mapping p)) /\
  (forall p l,
      In (Heading p l) (page st) <->
      exists df m, In (p, df, m) data /\ both_columns p df = true /\
                   l = month_or_unknown m).
Proof.
  intros H. destruct (summary_loop_page _ _ _ H) as (ws & Hp & Hw & Hh).
  simpl in Hp. subst ws. auto.
Qed.

(** ** Loading a file by its extension *)

Lemma contains_char_cons (c a : ascii) (s : string) :
  contains (String c EmptyString) (String a s) =
  Ascii.eqb a c || contains (String c EmptyString) s.
Proof.
  cbn [contains String.prefix]. destruct (ascii_dec c a) as [-> | Hne].
  - rewrite Ascii.eqb_refl. now destruct s.
  - destruct (Ascii.eqb_spec a c); [congruence | reflexivity].
Qed.

Lemma rfind_char_none (c : ascii) (s : string) :
  contains (String c EmptyString) s = false -> rfind_char c s = None.
Proof.
  induction s as [|a s IH]; [reflexivity |].
  rewrite contains_char_cons. intros H. apply orb_false_iff in H as [Ha Hs].
  simpl. now rewrite (IH Hs), Ha.
Qed.

Lemma contains_char_app (c : ascii) (s t : string) :
  contains (String c EmptyString) (s +:+ t) =
  contains (String c EmptyString) s || contains (String c EmptyString) t.
Proof.
  induction s as [|a s IH].
  - rewrite append_nil. reflexivity.
  - rewrite append_cons, !contains_char_cons, IH. now rewrite orb_assoc.
Qed.

Lemma rfind_char_app (c : ascii) (s t : string) :
  rfind_char c (s +:+ t) =
  match rfind_char c t with
  | Some i => Some (String.length s + i)%nat
  | None => rfind_char c s
  end.
Proof.
  induction s as [|a s IH].
  - rewrite append_nil. now destruct (rfind_char c t).
  - rewrite append_cons. simpl. rewrite IH. now destruct (rfind_char c t).
Qed.

Lemma substring_prefix (s t : string) :
  substring 0 (String.length s) (s +:+ t) = s.
Proof.
  induction s as [|a s IH].
  - rewrite append_nil. now destruct t.
  - rewrite append_cons. simpl. now rewrite IH.
Qed.

Lemma substring_all (t : string) : substring 0 (String.length t) t = t.
Proof. induction t as [|a t IH]; simpl; [reflexivity | now rewrite IH]. Qed.

Lemma substring_suffix (s t : string) :
  substring (String.length s) (String.length t) (s +:+ t) = t.
Proof.
  induction s as [|a s IH].
  - rewrite append_nil. apply substring_all.
  - rewrite append_cons. simpl. exact IH.
Qed.

Lemma length_append (s t : string) :
  String.length (s +:+ t) = (String.length s + String.length t)%nat.
Proof.
  induction s as [|a s IH].
  - now rewrite append_nil.
  - rewrite append_cons. simpl. now rewrite IH.
Qed.

Lemma splitext_bare_name (stem e : string) :
  contains "/" stem = false ->
  contains "/" e = false ->
  contains "." e = false ->
  has_other_char "." stem = true ->
  splitext (stem +:+ String "." e) = (stem, String "." e).
Proof.
  intros Hs He Hd Ho. unfold splitext.
  assert (Hsep : rfind_char "/" (stem +:+ String "." e) = None).
  { apply rfind_char_none. rewrite contains_char_app, contains_char_cons, Hs, He.
    reflexivity. }
  assert (Hdot : rfind_char "." (stem +:+ String "." e) = Some (String.length stem)).
  { rewrite rfind_char_app. simpl. rewrite (rfind_char_none _ _ Hd). simpl.
    f_equal. lia. }
  rewrite Hsep, Hdot. cbn [index_or_minus_one].
  replace (-1 <? Z.of_nat (String.length stem)) with true
    by (symmetry; apply Z.ltb_lt; lia).
  replace (Z.to_nat (-1 + 1)) with O by reflexivity.
  replace (Z.to_nat (Z.of_nat (String.length stem) - -1 - 1))
    with (String.length stem) by lia.
  rewrite Nat2Z.id, substring_prefix, Ho. cbn [andb].
  rewrite length_append, Nat.add_comm, Nat.add_sub, substring_suffix.
  reflexivity.
Qed.

Lemma splitext_no_dot (name : string) :
  contains "." name = false -> splitext name = (name, EmptyString).
Proof.
  intros H. unfold splitext. rewrite (rfind_char_none _ _ H).
  cbn [index_or_minus_one].
  destruct (rfind_char "/" name) as [i |]; cbn [index_or_minus_one].
  - replace (Z.of_nat i <? -1) with false by (symmetry; apply Z.ltb_ge; lia).
    reflexivity.
  - reflexivity.
Qed.

(** X15. [load_file] goes by the extension alone, in any letter case:
    a bare file name [stem.e] (no slash, [e] without a dot, [stem] not
    made of dots only) is read by [read_csv] when [e] is [csv], by
    [read_excel] when it is [xls] or [xlsx], and by neither otherwise, the
    result then being [None]; a name without a dot, and no file at all,
    give [None] too.  An exception of the reader is passed on. *)
Theorem load_file_by_extension :
  (forall (f : UploadedFile) (stem e : string),
      file_name f = stem +:+ String "." e ->
      contains "/" stem = false ->
      contains "/" e = false ->
      contains "." e = false ->
      has_other_char "." stem = true ->
      load_file (Some f) =
      if String.eqb (lower e) "csv" then
        let! df := read_csv f in Ok (Some df)
      else if String.eqb (lower e) "xls" || String.eqb (lower e) "xlsx" then
        let! df := read_excel f in Ok (Some df)
      else Ok None)
  /\ (forall f : UploadedFile,
      contains "." (file_name f) = false -> load_file (Some f) = Ok None)
  /\ load_file None = Ok None.
Proof.
  split; [| split].
  - intros f stem e Hn Hs He Hd Ho. unfold load_file.
    rewrite Hn, splitext_bare_name by assumption. reflexivity.
  - intros f H. unfold load_file. rewrite splitext_no_dot by assumption.
    reflexivity.
  - reflexivity.
Qed.

End App.

(** * The program on the example ledgers *)

Lemma no_month_code_scan (fn : string) :
  scan_months 1 months (upper fn) = None -> no_month_code fn.
Proof. intros H. exact (proj1 (scan_months_none 1 months (upper fn)) H). Qed.

Lemma filename_precedence_witness :
  (exists m, In m months /\ substring_of m (upper "Sales_MAR_2024.csv")) /\
  exists (k : nat) (m : string),
    extract_month num_str_integral to_datetime_iso
      "Sales_MAR_2024.csv" meesho_july_ledger Meesho
    = Ok (Some (Z.of_nat k + 1), Some m) /\
    nth_error months k = Some m /\
    substring_of m (upper "Sales_MAR_2024.csv") /\
    forall k' m', (k' < k)%nat -> nth_error months k' = Some m' ->
                  ~ substring_of m' (upper "Sales_MAR_2024.csv").
Proof.
  assert (H : exists m, In m months /\ substring_of m (upper "Sales_MAR_2024.csv")).
  { exists "MAR". split; [simpl; tauto | apply contains_spec; reflexivity]. }
  split; [exact H |].
  exact (filename_precedence num_str_integral to_datetime_iso
           "Sales_MAR_2024.csv" meesho_july_ledger Meesho H).
Defined.

Lemma meesho_month_number_five_witness :
  no_month_code "meesho_sales.csv" /\
  month_number_mode meesho_may_ledger = Ok (CNum 5) /\
  py_int (CNum 5) = Ok 5 /\
  extract_month num_str_integral to_datetime_iso
    "meesho_sales.csv" meesho_may_ledger Meesho
  = Ok (Some 5, Some "MAY").
Proof.
  assert (H1 : no_month_code "meesho_sales.csv")
    by (apply no_month_code_scan; reflexivity).
  assert (H2 : month_number_mode meesho_may_ledger = Ok (CNum 5))
    by reflexivity.
  assert (H3 : py_int (CNum 5) = Ok 5) by reflexivity.
  split; [exact H1 |]. split; [exact H2 |]. split; [exact H3 |].
  exact (meesho_month_number_five num_str_integral to_datetime_iso
           "meesho_sales.csv" meesho_may_ledger (CNum 5) H1 H2 H3).
Defined.

Lemma flipkart_amended_period_fallback_witness :
  no_month_code "flipkart_sales.csv" /\
  amended_period_mode num_str_integral flipkart_april_ledger = Ok (CStr "Apr-2025") /\
  strptime_bY "Apr-2025" = Ok {| dt_year := 2025; dt_month := Apr; dt_day := 1 |} /\
  (extract_month num_str_integral to_datetime_iso
     "flipkart_sales.csv" flipkart_april_ledger Flipkart
   = Ok (Some 4, Some "APR")
   /\ 1 <= 4 <= 12
   /\ nth_error months (Z.to_nat (4 - 1)) = Some "APR").
Proof.
  assert (H1 : no_month_code "flipkart_sales.csv")
    by (apply no_month_code_scan; reflexivity).
  assert (H2 : amended_period_mode num_str_integral flipkart_april_ledger
               = Ok (CStr "Apr-2025")) by reflexivity.
  assert (H3 : strptime_bY "Apr-2025"
               = Ok {| dt_year := 2025; dt_month := Apr; dt_day := 1 |})
    by reflexivity.
  split; [exact H1 |]. split; [exact H2 |]. split; [exact H3 |].
  exact (proj1 (flipkart_amended_period_fallback num_str_integral to_datetime_iso
                  "flipkart_sales.csv" flipkart_april_ledger H1)
           "Apr-2025" _ H2 H3).
Defined.

Lemma meesho_coercion_failure_final_witness :
  no_month_code "meesho_sales.csv" /\
  has_column "month_number" meesho_text_ledger = true /\
  (let! v := month_number_mode meesho_text_ledger in py_int v) = Raise ValueError /\
  has_column "order_date" meesho_text_ledger = true /\
  extract_month num_str_integral to_datetime_iso
    "meesho_sales.csv" meesho_text_ledger Meesho
  = Ok absent.
Proof.
  assert (H1 : no_month_code "meesho_sales.csv")
    by (apply no_month_code_scan; reflexivity).
  assert (H2 : has_column "month_number" meesho_text_ledger = true)
    by reflexivity.
  assert (H3 : (let! v := month_number_mode meesho_text_ledger in py_int v)
               = Raise ValueError) by reflexivity.
  split; [exact H1 |]. split; [exact H2 |]. split; [exact H3 |].
  split; [reflexivity |].
  exact (proj1 (meesho_coercion_failure_final num_str_integral to_datetime_iso
                  "meesho_sales.csv" meesho_text_ledger H1)
           ValueError H2 H3).
Defined.

(** C9, as stated, fails: the [month_number] column of this Meesho
    ledger does not convert, and yet the result is not the absent pair,
    because the filename names a month. *)
Lemma meesho_coercion_failure_after_filename :
  has_column "month_number" meesho_text_ledger = true /\
  (let! v := month_number_mode meesho_text_ledger in py_int v) = Raise ValueError /\
  extract_month num_str_integral to_datetime_iso
    "meesho_JAN_2024.csv" meesho_text_ledger Meesho
  = Ok (Some 1, Some "JAN").
Proof. repeat split. Qed.

(** C1, as stated, fails: the sales column is present, and the summary
    has [present = false] all the same, because the tax column is
    missing. *)
Lemma present_false_with_sales_column :
  has_column (sales_column (column_mapping Amazon)) amazon_sales_only_ledger = true /\
  has_column (tax_column (column_mapping Amazon)) amazon_sales_only_ledger = false /\
  summarize sort_desc_stable Amazon amazon_sales_only_ledger absent
  = Ok {| platform := Amazon; month := "Unknown"; present := false;
          total_sales := None; total_tax := None; region_breakdown := [] |}.
Proof. repeat split. Qed.



Lemma summarize_present_iff_both_witness :
  exists s,
    summarize sort_desc_stable Amazon (totals_ledger Amazon) absent = Ok s /\
    present s = true.
Proof.
  refine (proj2 (proj2 (summarize_present_iff_both sort_desc_stable
                          Amazon (totals_ledger Amazon) absent))
            [CNum 100; CNum 200; CNaN] [CNum 10; CNum 20; CNum 30] _ _ _ _).
  - reflexivity.
  - reflexivity.
  - apply numeric_forallb. reflexivity.
  - apply numeric_forallb. reflexivity.
Defined.



(** ** The further properties on the example ledgers *)

Lemma extract_month_pair_witness :
  extract_month num_str_integral to_datetime_iso
    "meesho_sales.csv" meesho_may_ledger Meesho = Ok (Some 5, Some "MAY") /\
  py_getitem months (5 - 1) = Ok "MAY" /\
  (1 <= 5 <= 12 \/
   (Meesho = Meesho /\ no_month_code "meesho_sales.csv" /\
    has_column "month_number" meesho_may_ledger = true /\ -11 <= 5 <= 0)).
Proof.
  assert (H : extract_month num_str_integral to_datetime_iso
                "meesho_sales.csv" meesho_may_ledger Meesho
              = Ok (Some 5, Some "MAY")) by reflexivity.
  split; [exact H |].
  exact (extract_month_pair num_str_integral to_datetime_iso
           "meesho_sales.csv" meesho_may_ledger Meesho 5 "MAY" H).
Defined.

Lemma meesho_month_number_regimes_witness :
  no_month_code "meesho_sales.csv" /\
  month_number_mode meesho_may_ledger = Ok (CNum 5) /\
  py_int (CNum 5) = Ok 5 /\
  ((1 <= 5 <= 12 ->
    exists m, nth_error months (Z.to_nat (5 - 1)) = Some m /\
              extract_month num_str_integral to_datetime_iso
                "meesho_sales.csv" meesho_may_ledger Meesho = Ok (Some 5, Some m)) /\
   (-11 <= 5 <= 0 ->
    exists m, nth_error months (Z.to_nat (5 + 11)) = Some m /\
              extract_month num_str_integral to_datetime_iso
                "meesho_sales.csv" meesho_may_ledger Meesho = Ok (Some 5, Some m)) /\
   (5 < -11 \/ 12 < 5 ->
    extract_month num_str_integral to_datetime_iso
      "meesho_sales.csv" meesho_may_ledger Meesho = Ok absent)).
Proof.
  assert (H1 : no_month_code "meesho_sales.csv")
    by (apply no_month_code_scan; reflexivity).
  assert (H2 : month_number_mode meesho_may_ledger = Ok (CNum 5)) by reflexivity.
  assert (H3 : py_int (CNum 5) = Ok 5) by reflexivity.
  split; [exact H1 |]. split; [exact H2 |]. split; [exact H3 |].
  exact (meesho_month_number_regimes num_str_integral to_datetime_iso
           "meesho_sales.csv" meesho_may_ledger (CNum 5) 5 H1 H2 H3).
Defined.


Lemma unparsed_date_gives_absent_witness :
  no_month_code "amazon_sales.csv" /\
  has_nat [parse_iso_date "2024-03-05"; parse_iso_date "pending";
           parse_iso_date "2024-03-07"] = true /\
  extract_month num_str_integral to_datetime_iso
    "amazon_sales.csv" amazon_dates_ledger Amazon = Ok absent.
Proof.
  assert (H1 : no_month_code "amazon_sales.csv")
    by (apply no_month_code_scan; reflexivity).
  assert (H2 : has_nat [parse_iso_date "2024-03-05"; parse_iso_date "pending";
                        parse_iso_date "2024-03-07"] = true) by reflexivity.
  split; [exact H1 |]. split; [exact H2 |].
  exact (proj1 (unparsed_date_gives_absent num_str_integral to_datetime_iso
                  "amazon_sales.csv" amazon_dates_ledger
                  [CStr "2024-03-05"; CStr "pending"; CStr "2024-03-07"]
                  _ H1 eq_refl H2)
           "Invoice Date" eq_refl eq_refl).
Defined.

Lemma date_column_most_frequent_month_witness :
  to_datetime_iso amazon_order_dates = Ok amazon_order_parsed /\
  amazon_order_parsed <> [] /\
  has_nat amazon_order_parsed = false /\
  from_date_column to_datetime_iso amazon_order_ledger (Some "Order Date")
  = Ok (Some 4, Some "APR") /\
  exists n m,
    from_date_column to_datetime_iso amazon_order_ledger (Some "Order Date")
    = Ok (Some n, Some m) /\
    1 <= n <= 12 /\
    nth_error months (Z.to_nat (n - 1)) = Some m /\
    (0 < month_count n amazon_order_parsed)%nat /\
    forall k,
      (month_count k amazon_order_parsed <= month_count n amazon_order_parsed)%nat /\
      (month_count k amazon_order_parsed = month_count n amazon_order_parsed ->
       n <= k).
Proof.
  assert (H1 : to_datetime_iso amazon_order_dates = Ok amazon_order_parsed)
    by reflexivity.
  assert (H2 : amazon_order_parsed <> []) by discriminate.
  assert (H3 : has_nat amazon_order_parsed = false) by reflexivity.
  split; [exact H1 |]. split; [exact H2 |]. split; [exact H3 |].
  split; [reflexivity |].
  exact (date_column_most_frequent_month to_datetime_iso
           amazon_order_ledger "Order Date" amazon_order_dates
           amazon_order_parsed eq_refl H1 H2 H3).
Defined.

Lemma no_month_columns_absent_witness :
  no_month_code "flipkart_sales.csv" /\
  (forall c, In c (month_columns Flipkart) -> totals_ledger Flipkart !! c = None) /\
  extract_month num_str_integral to_datetime_iso
    "flipkart_sales.csv" (totals_ledger Flipkart) Flipkart = Ok absent.
Proof.
  assert (H1 : no_month_code "flipkart_sales.csv")
    by (apply no_month_code_scan; reflexivity).
  assert (H2 : forall c, In c (month_columns Flipkart) ->
                         totals_ledger Flipkart !! c = None).
  { intros c [<- | []]. reflexivity. }
  split; [exact H1 |]. split; [exact H2 |].
  exact (no_month_columns_absent num_str_integral to_datetime_iso
           "flipkart_sales.csv" (totals_ledger Flipkart) Flipkart H1 H2).
Defined.

Lemma region_breakdown_keeps_largest_witness :
  (forall l, Permutation (sort_desc_stable l) l) /\
  (forall l, StronglySorted sales_desc (sort_desc_stable l)) /\
  numeric [CNum 20; CNum 200; CNum 120; CNum 30; CNum 10; CNum 80; CNum 999] /\
  numeric [CNum 1; CNum 2; CNum 3; CNum 4; CNum 5; CNum 6; CNum 7] /\
  exists s groups ranked,
    summarize sort_desc_stable Amazon amazon_region_ledger absent = Ok s /\
    groupby_sum [CStr "A"; CStr "B"; CStr "C"; CStr "A"; CStr "D"; CStr "C"; CNaN]
      [CNum 20; CNum 200; CNum 120; CNum 30; CNum 10; CNum 80; CNum 999]
    = Ok groups /\
    Permutation ranked groups /\
    region_breakdown s = firstn 10 ranked /\
    List.length (region_breakdown s) = Nat.min 10 (List.length groups) /\
    forall a b, In a (region_breakdown s) -> In b (skipn 10 ranked) ->
                (snd b <= snd a)%Q.
Proof.
  assert (H1 : numeric [CNum 20; CNum 200; CNum 120; CNum 30; CNum 10; CNum 80; CNum 999])
    by (apply numeric_forallb; reflexivity).
  assert (H2 : numeric [CNum 1; CNum 2; CNum 3; CNum 4; CNum 5; CNum 6; CNum 7])
    by (apply numeric_forallb; reflexivity).
  split; [exact sort_desc_stable_perm |].
  split; [exact sort_desc_stable_sorted |].
  split; [exact H1 |]. split; [exact H2 |].
  exact (region_breakdown_keeps_largest sort_desc_stable
           sort_desc_stable_perm sort_desc_stable_sorted
           Amazon amazon_region_ledger absent _ _ _ eq_refl eq_refl eq_refl H1 H2).
Defined.


Lemma summary_lists_aligned_witness :
  exists st,
    summary_loop sort_desc_stable page_data empty_page = Ok st /\
    List.map fst (sales_summary st) = [Amazon; Meesho] /\
    List.map fst (tax_summary st) = [Amazon; Meesho] /\
    Forall2 (column_total (fun p => sales_column (column_mapping p)))
            (present_entries page_data) (sales_summary st) /\
    Forall2 (column_total (fun p => tax_column (column_mapping p)))
            (present_entries page_data) (tax_summary st).
Proof.
  eexists. split; [reflexivity |].
  exact (summary_lists_aligned sort_desc_stable page_data _ eq_refl).
Defined.

Lemma overall_chart_bars_witness :
  exists st ch,
    summary_page sort_desc_stable page_data = Ok (st, Some ch) /\
    xticklabels ch = [Amazon; Meesho] /\
    sales_bars ch = [CNum 1459; CNum 300] /\
    tax_bars ch = [CNum 28; CNum 60] /\
    Forall2 (column_total (fun p => sales_column (column_mapping p)))
            (present_entries page_data) (combine (xticklabels ch) (sales_bars ch)) /\
    Forall2 (column_total (fun p => tax_column (column_mapping p)))
            (present_entries page_data) (combine (xticklabels ch) (tax_bars ch)).
Proof.
  do 2 eexists. split; [reflexivity |].
  split; [reflexivity |]. split; [reflexivity |]. split; [reflexivity |].
  exact (proj2 (proj2 (overall_chart_bars sort_desc_stable page_data _ _ eq_refl)
                  _ eq_refl)).
Defined.

Lemma page_headings_and_warnings_witness :
  exists st,
    summary_loop sort_desc_stable page_data empty_page = Ok st /\
    In (Warning Flipkart "Aggregate Taxable Value Rs." "IGST Amount Rs.") (page st) /\
    In (Heading Amazon "MAR") (page st) /\
    In (Heading Meesho "Unknown") (page st) /\
    ((forall p a b,
         In (Warning p a b) (page st) <->
         exists df m, In (p, df, m) page_data /\ both_columns p df = false /\
                      a = sales_column (column_mapping p) /\
                      b = tax_column (column_mapping p)) /\
     (forall p l,
         In (Heading p l) (page st) <->
         exists df m, In (p, df, m) page_data /\ both_columns p df = true /\
                      l = month_or_unknown m)).
Proof.
  eexists. split; [reflexivity |].
  split; [simpl; tauto |]. split; [simpl; tauto |]. split; [simpl; tauto |].
  exact (page_headings_and_warnings sort_desc_stable page_data _ eq_refl).
Defined.

Lemma load_file_by_extension_witness :
  load_file sample_file fst sample_reader sample_reader
    (Some ("Report_March.CSV", amazon_region_ledger))
  = Ok (Some amazon_region_ledger) /\
  load_file sample_file fst sample_reader sample_reader
    (Some ("notes.txt", amazon_region_ledger))
  = Ok None.
Proof.
  split.
  - exact (proj1 (load_file_by_extension sample_file fst sample_reader sample_reader)
             ("Report_March.CSV", amazon_region_ledger) "Report_March" "CSV"
             eq_refl eq_refl eq_refl eq_refl eq_refl).
  - exact (proj1 (load_file_by_extension sample_file fst sample_reader sample_reader)
             ("notes.txt", amazon_region_ledger) "notes" "txt"
             eq_refl eq_refl eq_refl eq_refl eq_refl).
Defined.
